(** * saIDHolidayChecker: the component's state machine

    A shallow embedding of the Lightning web component
    [lwc/saIDHolidayChecker/saIDHolidayChecker.js].  The component's tracked
    fields are a record; the browser around it (timer table, Apex calls in
    flight, dispatched toasts, console) is a second record; every method is
    written in a small state-and-exception monad, one definition per stretch
    of code between two [await]s.  Events of the page (input, clicks, timers
    firing, Apex promises settling, lifecycle hooks, public API calls) drive
    the machine through [step]. *)

From Stdlib Require Import ZArith Ascii DecimalString.
From stdpp Require Import base option gmap strings list.

(** ** JavaScript values as the component tests them

    A JavaScript string is a Rocq [string], one character per code unit, so
    that [String.length] is [.length]; an identifier is made of ASCII
    digits.  A property that may be missing from a record sent by the
    server is an [option]. *)

Module Js.

(** [Boolean(s)] for a string: only the empty string is falsy. *)
Definition truthy_string (s : string) : bool := negb (String.eqb s "").

(** [Boolean(n)] for an integral number: only zero is falsy. *)
Definition truthy_number (z : Z) : bool := negb (z =? 0)%Z.

(** A timer handle is a number; browsers hand out positive ones. *)
Definition truthy_handle (h : nat) : bool := negb (h =? 0)%nat.

(** A property that may be absent ([undefined]) is falsy when absent. *)
Definition truthy_opt {A} (t : A → bool) (v : option A) : bool :=
  match v with Some a => t a | None => false end.

(** [v || d]. *)
Definition or_else {A} (t : A → bool) (v : option A) (d : A) : A :=
  match v with
  | Some a => if t a then a else d
  | None => d
  end.

Fixpoint repeat_char (n : nat) (c : Ascii.ascii) : string :=
  match n with
  | O => ""
  | S k => String c (repeat_char k c)
  end.

(** [s.padStart(n, c)] for a one-character filler. *)
Definition padStart (n : nat) (c : Ascii.ascii) (s : string) : string :=
  repeat_char (n - String.length s) c +:+ s.

(** [x.toString()] for the result of [getMonth() + 1] or [getDate()];
    [None] stands for [NaN]. *)
Definition number_toString (x : option nat) : string :=
  match x with
  | Some k => NilZero.string_of_uint (Nat.to_uint k)
  | None => "NaN"
  end.

(** An integral number inside a template literal. *)
Definition integer_toString (z : Z) : string :=
  NilZero.string_of_int (Z.to_int z).

End Js.

(** ** Data returned by the Apex controller *)

(** An entry of [holidayResponse.holidays]; the component reads only
    [holidayDate] and hands the rest to the template. *)
Record Holiday := {
  holidayDate : string;
  otherFields : list (string * string)
}.

(** The holiday wrapper; [{}] has neither property. *)
Record HolidayResponse := {
  success : option bool;
  holidays : option (list Holiday)
}.

Definition emptyHolidayResponse : HolidayResponse :=
  {| success := None; holidays := None |}.

Module IdDetails.
(** The decoded identity; [{}] has no property. *)
Record t := {
  birthYear : option Z;
  dateOfBirth : option string;
  gender : option string;
  isSACitizen : option bool;
  formattedDateOfBirth : option string
}.
Definition empty : t :=
  {| birthYear := None; dateOfBirth := None; gender := None;
     isSACitizen := None; formattedDateOfBirth := None |}.
End IdDetails.

Module Result.
(** What [validateAndSearch] resolves to. *)
Record t := {
  isValid : bool;
  errorMessage : option string;
  idDetails : option IdDetails.t;
  holidayResponse : option HolidayResponse;
  searchCount : option Z;
  formattedIdNumber : option string
}.
End Result.

(** ** The component's fields (lines 8-26) *)

Record Component := {
  idNumber : string;
  isValidId : bool;
  isValidating : bool;
  isSearching : bool;
  hasResults : bool;
  hasError : bool;
  errorMessage : string;
  validationMessage : string;
  searchResults : list (string * string);
  validationTimeout : option nat;
  idDetails : IdDetails.t;
  holidayResponse : HolidayResponse;
  searchCount : Z;
  formattedIdNumber : string;
  holidaysOnBirthDate : list Holiday
}.

(** The field initialisers of the class body. *)
Definition initial : Component := {|
  idNumber := "";
  isValidId := false;
  isValidating := false;
  isSearching := false;
  hasResults := false;
  hasError := false;
  errorMessage := "";
  validationMessage := "";
  searchResults := [];
  validationTimeout := None;
  idDetails := IdDetails.empty;
  holidayResponse := emptyHolidayResponse;
  searchCount := 0;
  formattedIdNumber := "";
  holidaysOnBirthDate := []
|}.

(** Field assignment, one setter per field. *)
Definition set_idNumber (v : string) (c : Component) : Component :=
  {| idNumber := v; isValidId := isValidId c; isValidating := isValidating c;
     isSearching := isSearching c; hasResults := hasResults c;
     hasError := hasError c; errorMessage := errorMessage c;
     validationMessage := validationMessage c;
     searchResults := searchResults c;
     validationTimeout := validationTimeout c; idDetails := idDetails c;
     holidayResponse := holidayResponse c; searchCount := searchCount c;
     formattedIdNumber := formattedIdNumber c;
     holidaysOnBirthDate := holidaysOnBirthDate c |}.

Definition set_isValidId (v : bool) (c : Component) : Component :=
  {| idNumber := idNumber c; isValidId := v; isValidating := isValidating c;
     isSearching := isSearching c; hasResults := hasResults c;
     hasError := hasError c; errorMessage := errorMessage c;
     validationMessage := validationMessage c;
     searchResults := searchResults c;
     validationTimeout := validationTimeout c; idDetails := idDetails c;
     holidayResponse := holidayResponse c; searchCount := searchCount c;
     formattedIdNumber := formattedIdNumber c;
     holidaysOnBirthDate := holidaysOnBirthDate c |}.

Definition set_isValidating (v : bool) (c : Component) : Component :=
  {| idNumber := idNumber c; isValidId := isValidId c; isValidating := v;
     isSearching := isSearching c; hasResults := hasResults c;
     hasError := hasError c; errorMessage := errorMessage c;
     validationMessage := validationMessage c;
     searchResults := searchResults c;
     validationTimeout := validationTimeout c; idDetails := idDetails c;
     holidayResponse := holidayResponse c; searchCount := searchCount c;
     formattedIdNumber := formattedIdNumber c;
     holidaysOnBirthDate := holidaysOnBirthDate c |}.

Definition set_isSearching (v : bool) (c : Component) : Component :=
  {| idNumber := idNumber c; isValidId := isValidId c;
     isValidating := isValidating c; isSearching := v;
     hasResults := hasResults c; hasError := hasError c;
     errorMessage := errorMessage c;
     validationMessage := validationMessage c;
     searchResults := searchResults c;
     validationTimeout := validationTimeout c; idDetails := idDetails c;
     holidayResponse := holidayResponse c; searchCount := searchCount c;
     formattedIdNumber := formattedIdNumber c;
     holidaysOnBirthDate := holidaysOnBirthDate c |}.

Definition set_hasResults (v : bool) (c : Component) : Component :=
  {| idNumber := idNumber c; isValidId := isValidId c;
     isValidating := isValidating c; isSearching := isSearching c;
     hasResults := v; hasError := hasError c;
     errorMessage := errorMessage c;
     validationMessage := validationMessage c;
     searchResults := searchResults c;
     validationTimeout := validationTimeout c; idDetails := idDetails c;
     holidayResponse := holidayResponse c; searchCount := searchCount c;
     formattedIdNumber := formattedIdNumber c;
     holidaysOnBirthDate := holidaysOnBirthDate c |}.

Definition set_hasError (v : bool) (c : Component) : Component :=
  {| idNumber := idNumber c; isValidId := isValidId c;
     isValidating := isValidating c; isSearching := isSearching c;
     hasResults := hasResults c; hasError := v;
     errorMessage := errorMessage c;
     validationMessage := validationMessage c;
     searchResults := searchResults c;
     validationTimeout := validationTimeout c; idDetails := idDetails c;
     holidayResponse := holidayResponse c; searchCount := searchCount c;
     formattedIdNumber := formattedIdNumber c;
     holidaysOnBirthDate := holidaysOnBirthDate c |}.

Definition set_errorMessage (v : string) (c : Component) : Component :=
  {| idNumber := idNumber c; isValidId := isValidId c;
     isValidating := isValidating c; isSearching := isSearching c;
     hasResults := hasResults c; hasError := hasError c;
     errorMessage := v;
     validationMessage := validationMessage c;
     searchResults := searchResults c;
     validationTimeout := validationTimeout c; idDetails := idDetails c;
     holidayResponse := holidayResponse c; searchCount := searchCount c;
     formattedIdNumber := formattedIdNumber c;
     holidaysOnBirthDate := holidaysOnBirthDate c |}.

Definition set_validationMessage (v : string) (c : Component) : Component :=
  {| idNumber := idNumber c; isValidId := isValidId c;
     isValidating := isValidating c; isSearching := isSearching c;
     hasResults := hasResults c; hasError := hasError c;
     errorMessage := errorMessage c;
     validationMessage := v;
     searchResults := searchResults c;
     validationTimeout := validationTimeout c; idDetails := idDetails c;
     holidayResponse := holidayResponse c; searchCount := searchCount c;
     formattedIdNumber := formattedIdNumber c;
     holidaysOnBirthDate := holidaysOnBirthDate c |}.

Definition set_searchResults (v : list (string * string)) (c : Component)
  : Component :=
  {| idNumber := idNumber c; isValidId := isValidId c;
     isValidating := isValidating c; isSearching := isSearching c;
     hasResults := hasResults c; hasError := hasError c;
     errorMessage := errorMessage c;
     validationMessage := validationMessage c;
     searchResults := v;
     validationTimeout := validationTimeout c; idDetails := idDetails c;
     holidayResponse := holidayResponse c; searchCount := searchCount c;
     formattedIdNumber := formattedIdNumber c;
     holidaysOnBirthDate := holidaysOnBirthDate c |}.

Definition set_validationTimeout (v : option nat) (c : Component)
  : Component :=
  {| idNumber := idNumber c; isValidId := isValidId c;
     isValidating := isValidating c; isSearching := isSearching c;
     hasResults := hasResults c; hasError := hasError c;
     errorMessage := errorMessage c;
     validationMessage := validationMessage c;
     searchResults := searchResults c;
     validationTimeout := v; idDetails := idDetails c;
     holidayResponse := holidayResponse c; searchCount := searchCount c;
     formattedIdNumber := formattedIdNumber c;
     holidaysOnBirthDate := holidaysOnBirthDate c |}.

Definition set_idDetails (v : IdDetails.t) (c : Component) : Component :=
  {| idNumber := idNumber c; isValidId := isValidId c;
     isValidating := isValidating c; isSearching := isSearching c;
     hasResults := hasResults c; hasError := hasError c;
     errorMessage := errorMessage c;
     validationMessage := validationMessage c;
     searchResults := searchResults c;
     validationTimeout := validationTimeout c; idDetails := v;
     holidayResponse := holidayResponse c; searchCount := searchCount c;
     formattedIdNumber := formattedIdNumber c;
     holidaysOnBirthDate := holidaysOnBirthDate c |}.

Definition set_holidayResponse (v : HolidayResponse) (c : Component)
  : Component :=
  {| idNumber := idNumber c; isValidId := isValidId c;
     isValidating := isValidating c; isSearching := isSearching c;
     hasResults := hasResults c; hasError := hasError c;
     errorMessage := errorMessage c;
     validationMessage := validationMessage c;
     searchResults := searchResults c;
     validationTimeout := validationTimeout c; idDetails := idDetails c;
     holidayResponse := v; searchCount := searchCount c;
     formattedIdNumber := formattedIdNumber c;
     holidaysOnBirthDate := holidaysOnBirthDate c |}.

Definition set_searchCount (v : Z) (c : Component) : Component :=
  {| idNumber := idNumber c; isValidId := isValidId c;
     isValidating := isValidating c; isSearching := isSearching c;
     hasResults := hasResults c; hasError := hasError c;
     errorMessage := errorMessage c;
     validationMessage := validationMessage c;
     searchResults := searchResults c;
     validationTimeout := validationTimeout c; idDetails := idDetails c;
     holidayResponse := holidayResponse c; searchCount := v;
     formattedIdNumber := formattedIdNumber c;
     holidaysOnBirthDate := holidaysOnBirthDate c |}.

Definition set_formattedIdNumber (v : string) (c : Component) : Component :=
  {| idNumber := idNumber c; isValidId := isValidId c;
     isValidating := isValidating c; isSearching := isSearching c;
     hasResults := hasResults c; hasError := hasError c;
     errorMessage := errorMessage c;
     validationMessage := validationMessage c;
     searchResults := searchResults c;
     validationTimeout := validationTimeout c; idDetails := idDetails c;
     holidayResponse := holidayResponse c; searchCount := searchCount c;
     formattedIdNumber := v;
     holidaysOnBirthDate := holidaysOnBirthDate c |}.

Definition set_holidaysOnBirthDate (v : list Holiday) (c : Component)
  : Component :=
  {| idNumber := idNumber c; isValidId := isValidId c;
     isValidating := isValidating c; isSearching := isSearching c;
     hasResults := hasResults c; hasError := hasError c;
     errorMessage := errorMessage c;
     validationMessage := validationMessage c;
     searchResults := searchResults c;
     validationTimeout := validationTimeout c; idDetails := idDetails c;
     holidayResponse := holidayResponse c; searchCount := searchCount c;
     formattedIdNumber := formattedIdNumber c;
     holidaysOnBirthDate := v |}.

(** ** The page around the component *)

Inductive Error := JsError (msg : string).

(** How a promise settles. *)
Inductive Outcome (A : Type) :=
| Resolved (v : A)
| Rejected (e : Error).
Arguments Resolved {A} v.
Arguments Rejected {A} e.

(** The three arrow functions the component hands to [setTimeout]. *)
Inductive TimerCallback :=
| DebouncedValidation   (* line 45: () => this.performRealtimeValidation() *)
| ScrollToResults       (* line 144: () => this.scrollToResults() *)
| FocusInput.           (* line 314: () => inputElement.focus() *)

Record Timer := { callback : TimerCallback; delay : nat }.

(** Who awaits [performRealtimeValidation]: the debounce callback drops the
    promise, [searchWithId] continues after it. *)
Inductive ValidationCaller := FromDebounce | FromSearchWithId.

(** An async method suspended at its [await]. *)
Inductive Awaiting :=
| InPerformRealtimeValidation (caller : ValidationCaller)
| InHandleSearch
| InHandleRetryHolidays.

#[export] Instance ValidationCaller_eq_dec : EqDecision ValidationCaller.
Proof. solve_decision. Defined.

#[export] Instance Awaiting_eq_dec : EqDecision Awaiting.
Proof. solve_decision. Defined.

(** The imported Apex methods with the argument of the call. *)
Inductive ApexCall :=
| validateIdFormat (idNumberArg : string)
| validateAndSearch (idNumberArg : string)
| getHolidaysForYear (targetYear : Z).

(** The detail of a [ShowToastEvent]. *)
Record Toast := {
  title : string;
  message : string;
  variant : string;
  mode : string
}.

Inductive ConsoleEntry :=
| ConsoleLog (text : string)
| ConsoleError (label : string) (detail : Error + string).

(** The component instance and what the browser holds for it: the table of
    active timers, the Apex promises not yet settled, and the logs of calls
    made, toasts dispatched and console lines written. *)
Record World := {
  this : Component;
  timers : gmap nat Timer;
  nextTimer : nat;
  inFlight : gmap nat Awaiting;
  nextCall : nat;
  calls : list ApexCall;
  toasts : list Toast;
  console : list ConsoleEntry
}.

(** A freshly constructed component; timer handles start at 1. *)
Definition created : World := {|
  this := initial;
  timers := ∅;
  nextTimer := 1;
  inFlight := ∅;
  nextCall := 0;
  calls := [];
  toasts := [];
  console := []
|}.

(** [new Date(v).getMonth()] and [new Date(v).getDate()] in the local time
    zone of the browser; [None] is the [NaN] of an invalid date. *)
Class LocalDate := {
  Date_getMonth : string → option nat;
  Date_getDate : string → option nat
}.

(** ** Synchronous JavaScript: state and exceptions *)

Inductive Completion (A : Type) :=
| Normal (a : A)
| Throw (e : Error).
Arguments Normal {A} a.
Arguments Throw {A} e.

Definition JS (A : Type) : Type := World → Completion A * World.

Definition ret {A} (a : A) : JS A := λ w, (Normal a, w).

(** Sequencing: a thrown exception skips the rest. *)
Definition bind {A B} (m : JS A) (f : A → JS B) : JS B := λ w,
  match m w with
  | (Normal a, w') => f a w'
  | (Throw e, w') => (Throw e, w')
  end.

Declare Scope js_scope.
Delimit Scope js_scope with js.
Bind Scope js_scope with JS.
Notation "x ← y ; z" := (bind y (λ x, z))
  (at level 20, y at level 100, z at level 200, only parsing) : js_scope.
Notation "x ;; z" := (bind x (λ _, z))
  (at level 100, z at level 200, only parsing, right associativity)
  : js_scope.
Open Scope js_scope.

Definition throw {A} (e : Error) : JS A := λ w, (Throw e, w).

(** [try { body } catch (error) { handler }]. *)
Definition try_catch {A} (body : JS A) (handler : Error → JS A) : JS A :=
  λ w,
  match body w with
  | (Normal a, w') => (Normal a, w')
  | (Throw e, w') => handler e w'
  end.

(** [try { body } catch (error) { handler } finally { finalizer }]. *)
Definition try_catch_finally {A} (body : JS A) (handler : Error → JS A)
    (finalizer : JS unit) : JS A :=
  λ w,
  match try_catch body handler w with
  | (r, w') =>
      match finalizer w' with
      | (Normal _, w'') => (r, w'')
      | (Throw e, w'') => (Throw e, w'')
      end
  end.

(** The value of [await p] once [p] has settled, and of a platform call that
    may throw. *)
Definition await {A} (o : Outcome A) : JS A :=
  match o with
  | Resolved v => ret v
  | Rejected e => throw e
  end.

(** Calling an async method without awaiting it: a rejection stays in the
    dropped promise. *)
Definition not_awaited (m : JS unit) : JS unit := λ w, (Normal tt, (m w).2).

(** [this.f]. *)
Definition get {A} (f : Component → A) : JS A := λ w, (Normal (f (this w)), w).

(** [this.f = v]. *)
Definition assign {A} (set : A → Component → Component) (v : A) : JS unit :=
  λ w,
  (Normal tt,
   {| this := set v (this w); timers := timers w; nextTimer := nextTimer w;
      inFlight := inFlight w; nextCall := nextCall w; calls := calls w;
      toasts := toasts w; console := console w |}).

Definition setTimeout (cb : TimerCallback) (ms : nat) : JS nat := λ w,
  (Normal (nextTimer w),
   {| this := this w;
      timers := <[nextTimer w := {| callback := cb; delay := ms |}]> (timers w);
      nextTimer := S (nextTimer w);
      inFlight := inFlight w; nextCall := nextCall w; calls := calls w;
      toasts := toasts w; console := console w |}).

(** Clearing a handle that is not active does nothing. *)
Definition clearTimeout (h : nat) : JS unit := λ w,
  (Normal tt,
   {| this := this w; timers := delete h (timers w);
      nextTimer := nextTimer w;
      inFlight := inFlight w; nextCall := nextCall w; calls := calls w;
      toasts := toasts w; console := console w |}).

(** Starting an Apex call and suspending the caller on its promise. *)
Definition callApex (c : ApexCall) (k : Awaiting) : JS unit := λ w,
  (Normal tt,
   {| this := this w; timers := timers w; nextTimer := nextTimer w;
      inFlight := <[nextCall w := k]> (inFlight w);
      nextCall := S (nextCall w);
      calls := calls w ++ [c];
      toasts := toasts w; console := console w |}).

Definition dispatchEvent (t : Toast) : JS unit := λ w,
  (Normal tt,
   {| this := this w; timers := timers w; nextTimer := nextTimer w;
      inFlight := inFlight w; nextCall := nextCall w; calls := calls w;
      toasts := toasts w ++ [t]; console := console w |}).

Definition console_write (e : ConsoleEntry) : JS unit := λ w,
  (Normal tt,
   {| this := this w; timers := timers w; nextTimer := nextTimer w;
      inFlight := inFlight w; nextCall := nextCall w; calls := calls w;
      toasts := toasts w; console := console w ++ [e] |}).

Definition console_error (label : string) (error : Error) : JS unit :=
  console_write (ConsoleError label (inl error)).

(** The event loop takes a settled promise or a fired timer out of its
    table before it runs the continuation. *)
Definition settled (id : nat) (w : World) : World :=
  {| this := this w; timers := timers w; nextTimer := nextTimer w;
     inFlight := delete id (inFlight w); nextCall := nextCall w;
     calls := calls w; toasts := toasts w; console := console w |}.

Definition fired (id : nat) (w : World) : World :=
  {| this := this w; timers := delete id (timers w);
     nextTimer := nextTimer w;
     inFlight := inFlight w; nextCall := nextCall w;
     calls := calls w; toasts := toasts w; console := console w |}.

(** ** The methods of the class

    An async method is cut at its [await]: the definition that carries the
    method's name runs up to the Apex call, the [_resumed] one runs from the
    settled promise to the end. *)

Section Methods.

Context {dates : LocalDate}.

(** Lines 205-213. *)
Definition showToast (title message variant : string) : JS unit :=
  dispatchEvent
    {| title := title; message := message; variant := variant;
       mode := "pester" |}.

(** Lines 242-244. *)
Definition isSearchDisabled (c : Component) : bool :=
  negb (isValidId c) || isSearching c || isValidating c.

(** Lines 69-71: up to [await validateIdFormat(...)]. *)
Definition performRealtimeValidation (caller : ValidationCaller) : JS unit :=
  idNumber ← get idNumber;
  callApex (validateIdFormat idNumber) (InPerformRealtimeValidation caller).

(** Lines 70-86: from the settled promise on. *)
Definition performRealtimeValidation_resumed (o : Outcome bool) : JS unit :=
  try_catch
    (isValid ← await o;
     assign set_isValidId isValid;;
     assign set_isValidating false;;
     if isValid
     then assign set_validationMessage "Valid SA ID Number ✓"
     else assign set_validationMessage "Invalid SA ID Number format")
    (λ error,
     console_error "Validation error:" error;;
     assign set_isValidating false;;
     assign set_isValidId false;;
     assign set_validationMessage "Validation error occurred").

(** Lines 31-55. *)
Definition handleInputChange (value : string) : JS unit :=
  assign set_idNumber value;;
  assign set_hasError false;;
  assign set_errorMessage "";;
  assign set_validationMessage "";;
  validationTimeout ← get validationTimeout;
  match validationTimeout with
  | Some h => if Js.truthy_handle h then clearTimeout h else ret tt
  | None => ret tt
  end;;
  idNumber ← get idNumber;
  if Js.truthy_string idNumber && (10 <=? String.length idNumber)%nat
  then
    assign set_isValidating true;;
    h ← setTimeout DebouncedValidation 500;
    assign set_validationTimeout (Some h)
  else
    assign set_isValidId false;;
    assign set_isValidating false;;
    if (0 <? String.length idNumber)%nat && (String.length idNumber <? 13)%nat
    then assign set_validationMessage "ID number must be 13 digits long"
    else ret tt.

(** Lines 152-167. *)
Definition checkHolidaysOnBirthDate : JS unit :=
  assign set_holidaysOnBirthDate [];;
  idDetails ← get idDetails;
  holidayResponse ← get holidayResponse;
  match IdDetails.dateOfBirth idDetails, holidays holidayResponse with
  | Some dateOfBirth, Some holidays =>
      if Js.truthy_string dateOfBirth
      then
        let birthMonth :=
          Js.padStart 2 "0"%char
            (Js.number_toString ((λ m, m + 1) <$> Date_getMonth dateOfBirth)) in
        let birthDay :=
          Js.padStart 2 "0"%char (Js.number_toString (Date_getDate dateOfBirth)) in
        let birthDateString :=
          match IdDetails.birthYear idDetails with
          | Some y => Js.integer_toString y
          | None => "undefined"
          end +:+ "-" +:+ birthMonth +:+ "-" +:+ birthDay in
        assign set_holidaysOnBirthDate
          (filter (λ holiday, holidayDate holiday = birthDateString) holidays)
      else ret tt
  | _, _ => ret tt
  end.

(** Lines 172-176: up to [await getHolidaysForYear(...)]. *)
Definition handleRetryHolidays : JS unit :=
  idDetails ← get idDetails;
  match IdDetails.birthYear idDetails with
  | Some birthYear =>
      if Js.truthy_number birthYear
      then callApex (getHolidaysForYear birthYear) InHandleRetryHolidays
      else ret tt
  | None => ret tt
  end.

(** Lines 175-187: from the settled promise on. *)
Definition handleRetryHolidays_resumed (o : Outcome HolidayResponse)
  : JS unit :=
  try_catch
    (holidayResponse ← await o;
     assign set_holidayResponse holidayResponse;;
     checkHolidaysOnBirthDate;;
     if Js.truthy_opt id (success holidayResponse)
     then showToast "Success!" "Holiday information retrieved" "success"
     else ret tt)
    (λ error,
     console_error "Retry holidays error:" error;;
     showToast "Error" "Failed to retrieve holidays" "error").

(** Lines 192-200: touches the document only. *)
Definition scrollToResults : JS unit := ret tt.

(** Lines 123-147; the call of [checkHolidaysOnBirthDate] on line 130 is
    commented out in the source. *)
Definition processSuccessfulSearch (result : Result.t) : JS unit :=
  assign set_idDetails
    (Js.or_else (λ _, true) (Result.idDetails result) IdDetails.empty);;
  assign set_holidayResponse
    (Js.or_else (λ _, true) (Result.holidayResponse result)
       emptyHolidayResponse);;
  assign set_searchCount
    (Js.or_else Js.truthy_number (Result.searchCount result) 0%Z);;
  assign set_formattedIdNumber
    (Js.or_else Js.truthy_string (Result.formattedIdNumber result) "");;
  not_awaited handleRetryHolidays;;
  assign set_hasResults true;;
  _ ← setTimeout ScrollToResults 300;
  ret tt.

(** Lines 91-102: the guard, the flags and the call of
    [validateAndSearch]. *)
Definition handleSearch : JS unit :=
  isValidId ← get isValidId;
  isSearching ← get isSearching;
  if negb isValidId || isSearching
  then ret tt
  else
    assign set_isSearching true;;
    assign set_hasError false;;
    assign set_hasResults false;;
    assign set_errorMessage "";;
    idNumber ← get idNumber;
    callApex (validateAndSearch idNumber) InHandleSearch.

(** Lines 101-118: from the settled promise on. *)
Definition handleSearch_resumed (o : Outcome Result.t) : JS unit :=
  try_catch_finally
    (result ← await o;
     if Result.isValid result
     then processSuccessfulSearch result
     else
       assign set_hasError true;;
       assign set_errorMessage
         (Js.or_else Js.truthy_string (Result.errorMessage result)
            "Invalid SA ID Number"))
    (λ error,
     console_error "Search error:" error;;
     assign set_hasError true;;
     assign set_errorMessage
       "An unexpected error occurred. Please try again.";;
     showToast "Error" "Failed to process your request" "error")
    (assign set_isSearching false).

(** Lines 60-64. *)
Definition handleKeyDown (key : string) : JS unit :=
  isValidId ← get isValidId;
  disabled ← get isSearchDisabled;
  if String.eqb key "Enter" && isValidId && negb disabled
  then not_awaited handleSearch
  else ret tt.

(** Lines 301-303. *)
Definition connectedCallback : JS unit :=
  console_write (ConsoleLog "SA ID Holiday Checker component initialized").

(** Lines 305-309. *)
Definition disconnectedCallback : JS unit :=
  validationTimeout ← get validationTimeout;
  match validationTimeout with
  | Some h => if Js.truthy_handle h then clearTimeout h else ret tt
  | None => ret tt
  end.

(** Lines 311-319; [inputElement] says whether the template holds an
    [input]. *)
Definition renderedCallback (inputElement : bool) : JS unit :=
  hasResults ← get hasResults;
  hasError ← get hasError;
  if inputElement && negb hasResults && negb hasError
  then _ ← setTimeout FocusInput 100; ret tt
  else ret tt.

(** Lines 324-338. *)
Definition errorCallback (error : Error) (stack : string) : JS unit :=
  console_error "Component error:" error;;
  console_write (ConsoleError "Stack trace:" (inr stack));;
  assign set_hasError true;;
  assign set_errorMessage
    "A component error occurred. Please refresh the page.";;
  assign set_isSearching false;;
  assign set_isValidating false;;
  showToast "Component Error"
    "An unexpected error occurred. Please refresh the page." "error".

(** Lines 357-376. *)
Definition resetComponent : JS unit :=
  assign set_idNumber "";;
  assign set_isValidId false;;
  assign set_isValidating false;;
  assign set_isSearching false;;
  assign set_hasResults false;;
  assign set_hasError false;;
  assign set_errorMessage "";;
  assign set_validationMessage "";;
  assign set_searchResults [];;
  assign set_idDetails IdDetails.empty;;
  assign set_holidayResponse emptyHolidayResponse;;
  assign set_searchCount 0%Z;;
  assign set_formattedIdNumber "";;
  assign set_holidaysOnBirthDate [];;
  validationTimeout ← get validationTimeout;
  match validationTimeout with
  | Some h => if Js.truthy_handle h then clearTimeout h else ret tt
  | None => ret tt
  end.

(** Lines 381-384: up to the [await] inside [performRealtimeValidation]. *)
Definition searchWithId (idNumber : string) : JS unit :=
  assign set_idNumber idNumber;;
  performRealtimeValidation FromSearchWithId.

(** Lines 386-388: after [await this.performRealtimeValidation()]. *)
Definition searchWithId_resumed : JS unit :=
  isValidId ← get isValidId;
  if isValidId then handleSearch else ret tt.

(** Lines 391-400. *)
Definition getCurrentResults (c : Component)
  : IdDetails.t * HolidayResponse * Z * bool * bool :=
  (idDetails c, holidayResponse c, searchCount c, isValidId c, hasResults c).

(** Lines 402-405. *)
Definition reset : JS unit := resetComponent.

(** Lines 290-292. *)
Definition holidayCount (c : Component) : nat :=
  match holidays (holidayResponse c) with
  | Some hs => length hs
  | None => 0
  end.

(** Lines 294-296. *)
Definition hasHolidaysOnBirthDate (c : Component) : bool :=
  (0 <? length (holidaysOnBirthDate c))%nat.

(** Lines 254-268.  [toLocaleDateString d] is what
    [new Date(d).toLocaleDateString('en-ZA', {weekday: 'long', year:
    'numeric', month: 'long', day: 'numeric'})] does in the browser at hand:
    it returns a text or throws. *)
Definition formattedDateOfBirth
    (toLocaleDateString : string → Outcome string) : JS string :=
  details ← get idDetails;
  match IdDetails.dateOfBirth details with
  | Some dateOfBirth =>
      if Js.truthy_string dateOfBirth
      then
        try_catch
          (await (toLocaleDateString dateOfBirth))
          (λ error,
           details ← get idDetails;
           ret (Js.or_else Js.truthy_string
                  (IdDetails.formattedDateOfBirth details) ""))
      else ret ""
  | None => ret ""
  end.

(** [new Date(d).toLocaleDateString(locales, options)] in an engine that
    follows ECMAScript, for a well-formed locale tag and well-formed
    options, as ['en-ZA'] and the options of lines 259-264 and 348-351
    are: the call throws nothing; for a date the engine cannot read, whose
    time value is [NaN], it returns ['Invalid Date']; for any other date the
    text is left to the engine, here [localeText]. *)
Definition Date_toLocaleDateString
    (localeText : string → string) (d : string) : Outcome string :=
  match Date_getDate d with
  | Some _ => Resolved (localeText d)
  | None => Resolved "Invalid Date"
  end.

(** Lines 218-226. *)
Definition inputClass (c : Component) : string :=
  let baseClass := "input-field" in
  if isValidId c
  then baseClass +:+ " input-valid"
  else
    if (0 <? String.length (idNumber c))%nat && negb (isValidating c)
    then baseClass +:+ " input-invalid"
    else baseClass.

(** Lines 228-236. *)
Definition validationMessageClass (c : Component) : string :=
  let baseClass := "validation-message" in
  if isValidId c
  then baseClass +:+ " validation-success"
  else baseClass +:+ " validation-error".

(** Lines 238-240. *)
Definition searchButtonClass (c : Component) : string := "search-button".

(** Lines 246-248. *)
Definition showValidIcon (c : Component) : bool :=
  isValidId c && negb (isValidating c).

(** Lines 250-252. *)
Definition showInvalidIcon (c : Component) : bool :=
  negb (isValidId c) && (0 <? String.length (idNumber c))%nat
  && negb (isValidating c).

(** Lines 270-278; [===] on strings is case-sensitive. *)
Definition genderBadgeClass (c : Component) : string :=
  let gender := IdDetails.gender (idDetails c) in
  if bool_decide (gender = Some "Male")
  then "gender-badge gender-male"
  else
    if bool_decide (gender = Some "Female")
    then "gender-badge gender-female"
    else "gender-badge".

(** Lines 280-284. *)
Definition citizenshipBadgeClass (c : Component) : string :=
  if Js.truthy_opt id (IdDetails.isSACitizen (idDetails c))
  then "citizenship-badge citizenship-sa"
  else "citizenship-badge citizenship-non-sa".

(** Lines 286-288. *)
Definition citizenshipText (c : Component) : string :=
  if Js.truthy_opt id (IdDetails.isSACitizen (idDetails c))
  then "SA Citizen"
  else "Non-SA Citizen".

(** Lines 343-355.  [toLocaleDateString d] is what
    [new Date(d).toLocaleDateString('en-ZA', {month: 'short', day:
    'numeric'})] does in the browser at hand; a missing argument is
    [None]. *)
Definition formatDate (toLocaleDateString : string → Outcome string)
    (dateString : option string) : JS string :=
  match dateString with
  | Some text =>
      if Js.truthy_string text
      then try_catch (await (toLocaleDateString text)) (λ error, ret text)
      else ret ""
  | None => ret ""
  end.

(** ** The event loop *)

Inductive Event :=
| InputChange (value : string)           (* oninput -> handleInputChange *)
| KeyDown (key : string)                 (* onkeydown -> handleKeyDown *)
| SearchClick                            (* onclick -> handleSearch *)
| RetryClick                             (* onclick -> handleRetryHolidays *)
| TimerFires (handle : nat)
| ValidateIdFormatSettles (call : nat) (o : Outcome bool)
| ValidateAndSearchSettles (call : nat) (o : Outcome Result.t)
| GetHolidaysForYearSettles (call : nat) (o : Outcome HolidayResponse)
| SearchWithId (idNumber : string)       (* public API *)
| Reset                                  (* public API *)
| Connected
| Disconnected
| Rendered (inputElement : bool)
| ErrorCaught (error : Error) (stack : string).

Definition run_callback (cb : TimerCallback) : JS unit :=
  match cb with
  | DebouncedValidation => not_awaited (performRealtimeValidation FromDebounce)
  | ScrollToResults => scrollToResults
  | FocusInput => ret tt
  end.

(** The code one event runs, with the completion it ends in. *)
Definition handle (e : Event) : JS unit := λ w,
  match e with
  | InputChange value => handleInputChange value w
  | KeyDown key => handleKeyDown key w
  | SearchClick => handleSearch w
  | RetryClick => handleRetryHolidays w
  | TimerFires h =>
      match timers w !! h with
      | Some t => run_callback (callback t) (fired h w)
      | None => (Normal tt, w)
      end
  | ValidateIdFormatSettles id o =>
      match inFlight w !! id with
      | Some (InPerformRealtimeValidation FromDebounce) =>
          performRealtimeValidation_resumed o (settled id w)
      | Some (InPerformRealtimeValidation FromSearchWithId) =>
          (performRealtimeValidation_resumed o;; searchWithId_resumed)
            (settled id w)
      | _ => (Normal tt, w)
      end
  | ValidateAndSearchSettles id o =>
      match inFlight w !! id with
      | Some InHandleSearch => handleSearch_resumed o (settled id w)
      | _ => (Normal tt, w)
      end
  | GetHolidaysForYearSettles id o =>
      match inFlight w !! id with
      | Some InHandleRetryHolidays =>
          handleRetryHolidays_resumed o (settled id w)
      | _ => (Normal tt, w)
      end
  | SearchWithId idNumber => searchWithId idNumber w
  | Reset => reset w
  | Connected => connectedCallback w
  | Disconnected => disconnectedCallback w
  | Rendered inputElement => renderedCallback inputElement w
  | ErrorCaught error stack => errorCallback error stack w
  end.

Definition step (w : World) (e : Event) : World := (handle e w).2.

Definition run (w : World) (es : list Event) : World := foldl step w es.

End Methods.

(** ** A browser to run scenarios in

    The date-only text Apex serialises a [Date] to, "YYYY-MM-DD", is read by
    [new Date] as midnight UTC of that day; in a zone that is not behind UTC
    (South Africa is at UTC+2) the local calendar day is the same one.  Any
    other text is taken as an invalid date. *)

Module IsoDate.

Definition digit (c : ascii) : option nat :=
  let n := nat_of_ascii c in
  if (48 <=? n)%nat && (n <=? 57)%nat then Some (n - 48) else None.

Definition number (ds : list ascii) : option nat :=
  foldl (λ acc c,
         match acc, digit c with
         | Some a, Some d => Some (10 * a + d)
         | _, _ => None
         end) (Some 0) ds.

Definition leap (y : nat) : bool :=
  ((y mod 4 =? 0) && negb (y mod 100 =? 0) || (y mod 400 =? 0))%nat.

Definition days_in_month (y m : nat) : nat :=
  match m with
  | 2 => if leap y then 29 else 28
  | 4 | 6 | 9 | 11 => 30
  | _ => 31
  end.

(** Year, month (1-12) and day of a well-formed date-only text. *)
Definition parse (s : string) : option (nat * nat * nat) :=
  match String.list_ascii_of_string s with
  | [y1; y2; y3; y4; dash1; m1; m2; dash2; d1; d2] =>
      match number [y1; y2; y3; y4], number [m1; m2], number [d1; d2] with
      | Some y, Some m, Some d =>
          if Ascii.eqb dash1 "-" && Ascii.eqb dash2 "-"
             && (1 <=? m)%nat && (m <=? 12)%nat
             && (1 <=? d)%nat && (d <=? days_in_month y m)%nat
          then Some (y, m, d)
          else None
      | _, _, _ => None
      end
  | _ => None
  end.

#[export] Instance local : LocalDate := {|
  Date_getMonth s :=
    match parse s with Some (_, m, _) => Some (m - 1) | None => None end;
  Date_getDate s :=
    match parse s with Some (_, _, d) => Some d | None => None end
|}.

End IsoDate.

(** ** Vocabulary of the properties *)

(** The toast of line 114. *)
Definition searchFailedToast : Toast :=
  {| title := "Error"; message := "Failed to process your request";
     variant := "error"; mode := "pester" |}.

(** The toast of line 185. *)
Definition holidaysFailedToast : Toast :=
  {| title := "Error"; message := "Failed to retrieve holidays";
     variant := "error"; mode := "pester" |}.

(** The toast of line 181. *)
Definition holidaysRetrievedToast : Toast :=
  {| title := "Success!"; message := "Holiday information retrieved";
     variant := "success"; mode := "pester" |}.

(** The toast of lines 333-337. *)
Definition componentErrorToast : Toast :=
  {| title := "Component Error";
     message := "An unexpected error occurred. Please refresh the page.";
     variant := "error"; mode := "pester" |}.

(** A call of [validateAndSearch] has not settled yet. *)
Definition searching (w : World) : Prop :=
  ∃ id, inFlight w !! id = Some InHandleSearch.

(** Every event may happen. *)
Definition any_event (w : World) (e : Event) : Prop := True.

(** [reset] and the error boundary run only while no search is in flight. *)
Definition undisturbed (w : World) (e : Event) : Prop :=
  match e with
  | Reset | ErrorCaught _ _ => ¬ searching w
  | _ => True
  end.

(** Besides, the error boundary runs only while no result is shown. *)
Definition allowed (w : World) (e : Event) : Prop :=
  match e with
  | Reset => ¬ searching w
  | ErrorCaught _ _ => ¬ searching w ∧ hasResults (this w) = false
  | _ => True
  end.

(** Events other than the completion of a search and the error boundary. *)
Definition no_completion (w : World) (e : Event) : Prop :=
  match e with
  | ValidateAndSearchSettles _ _ | ErrorCaught _ _ => False
  | _ => True
  end.

(** The debounce handle names the only validation callback that can still
    fire. *)
Definition debounce_owned (w : World) : Prop :=
  nextTimer w ≠ 0
  ∧ (∀ h, validationTimeout (this w) = Some h → h ≠ 0)
  ∧ (∀ h t, timers w !! h = Some t → callback t = DebouncedValidation →
            validationTimeout (this w) = Some h).

(** No pending timer would run [performRealtimeValidation]. *)
Definition no_debounce_pending (w : World) : Prop :=
  ∀ h t, timers w !! h = Some t → callback t ≠ DebouncedValidation.

(** Call identifiers are fresh, at most one search is in flight, and the
    flag [isSearching] is set exactly while one is. *)
Definition guard_tracks_search (w : World) : Prop :=
  (∀ i k, inFlight w !! i = Some k → i < nextCall w)
  ∧ (∀ i j, inFlight w !! i = Some InHandleSearch →
            inFlight w !! j = Some InHandleSearch → i = j)
  ∧ (isSearching (this w) = true ↔ searching w).

(** At most one of the two flags is set. *)
Definition exclusive (w : World) : Prop :=
  hasResults (this w) && hasError (this w) = false.

Definition flags_clear_while_searching (w : World) : Prop :=
  searching w → hasResults (this w) = false ∧ hasError (this w) = false.

(** A successful search, the event that assigns [idDetails] and
    [holidayResponse] without a call of [checkHolidaysOnBirthDate]. *)
Definition replaces_inputs (e : Event) : bool :=
  match e with
  | ValidateAndSearchSettles _ (Resolved result) => Result.isValid result
  | _ => false
  end.

Section Properties.

Context {dates : LocalDate}.

(** States reached from a fresh component by events that [ok] admits. *)
Inductive reachable_by (ok : World → Event → Prop) : World → Prop :=
| reachable_created : reachable_by ok created
| reachable_step (w : World) (e : Event) :
    reachable_by ok w → ok w e → reachable_by ok (step w e).

(** [ok] admits every event of the sequence in the state it meets. *)
Fixpoint all_ok (ok : World → Event → Prop) (w : World) (es : list Event)
  : Prop :=
  match es with
  | [] => True
  | e :: es' => ok w e ∧ all_ok ok (step w e) es'
  end.

(** The text [checkHolidaysOnBirthDate] compares [holidayDate] with. *)
Definition birthDateString (d : IdDetails.t) (dateOfBirth : string)
  : string :=
  match IdDetails.birthYear d with
  | Some y => Js.integer_toString y
  | None => "undefined"
  end
  +:+ "-"
  +:+ Js.padStart 2 "0"%char
        (Js.number_toString ((λ m, m + 1) <$> Date_getMonth dateOfBirth))
  +:+ "-"
  +:+ Js.padStart 2 "0"%char (Js.number_toString (Date_getDate dateOfBirth)).

(** The decimal digit [k] as a character, and a number below 100 (below
    10000) written with exactly two (four) decimal digits. *)
Definition decimal_digit (k : nat) : Ascii.ascii :=
  Ascii.ascii_of_nat (48 + k mod 10).

Definition two_digit_text (k : nat) : string :=
  String (decimal_digit (k / 10)) (String (decimal_digit k) "").

Definition four_digit_text (k : nat) : string :=
  String (decimal_digit (k / 1000))
    (String (decimal_digit (k / 100)) (two_digit_text k)).

(** The ISO text [YYYY-MM-DD] of a year, a month (1-12) and a day. *)
Definition iso_date_text (y m d : nat) : string :=
  four_digit_text y +:+ "-" +:+ two_digit_text m +:+ "-" +:+ two_digit_text d.

(** The cross-reference as a function of the identity and the holidays:
    the holidays dated on the birth day of the birth year, none when the
    date of birth or the holiday list is missing. *)
Definition crossReference (d : IdDetails.t) (r : HolidayResponse)
  : list Holiday :=
  match IdDetails.dateOfBirth d, holidays r with
  | Some dateOfBirth, Some hs =>
      if Js.truthy_string dateOfBirth
      then filter (λ h, holidayDate h = birthDateString d dateOfBirth) hs
      else []
  | _, _ => []
  end.

(** The stored [holidaysOnBirthDate] is the cross-reference of the stored
    [idDetails] and [holidayResponse]. *)
Definition consistent (w : World) : Prop :=
  holidaysOnBirthDate (this w) =
  crossReference (idDetails (this w)) (holidayResponse (this w)).

End Properties.

(** ** A scenario: the identifier of the spec, born 1 January 1980 *)

Module Scenario.

Definition idA : string := "8001014800086".
Definition idB : string := "9202204720082".

Definition detailsA : IdDetails.t :=
  {| IdDetails.birthYear := Some 1980%Z;
     IdDetails.dateOfBirth := Some "1980-01-01";
     IdDetails.gender := Some "Male";
     IdDetails.isSACitizen := Some true;
     IdDetails.formattedDateOfBirth := Some "1 January 1980" |}.

Definition newYear : Holiday :=
  {| holidayDate := "1980-01-01";
     otherFields := [("holidayName", "New Year Day")] |}.

Definition workersDay : Holiday :=
  {| holidayDate := "1980-05-01";
     otherFields := [("holidayName", "Workers Day")] |}.

Definition holidays1980 : HolidayResponse :=
  {| success := Some true; holidays := Some [newYear; workersDay] |}.

Definition resultA : Result.t :=
  {| Result.isValid := true;
     Result.errorMessage := None;
     Result.idDetails := Some detailsA;
     Result.holidayResponse := Some holidays1980;
     Result.searchCount := Some 1%Z;
     Result.formattedIdNumber := Some "800101 4800 08 6" |}.

Definition rejectedResult : Result.t :=
  {| Result.isValid := false;
     Result.errorMessage := Some "Invalid checksum";
     Result.idDetails := None;
     Result.holidayResponse := None;
     Result.searchCount := None;
     Result.formattedIdNumber := None |}.

Definition offline : Error := JsError "Network error".

(** [idA] has been typed; the debounce timer, handle 1, is pending. *)
Definition typed : World :=
  step (dates := IsoDate.local) created (InputChange idA).

(** The debounce fired; [validateIdFormat], call 0, is in flight. *)
Definition debounced : World :=
  step (dates := IsoDate.local) typed (TimerFires 1).

(** The format check passed. *)
Definition valid : World :=
  step (dates := IsoDate.local) debounced
    (ValidateIdFormatSettles 0 (Resolved true)).

(** The search button was clicked; [validateAndSearch], call 1, is in
    flight. *)
Definition searchingA : World :=
  step (dates := IsoDate.local) valid SearchClick.

(** The search resolved with [resultA]; [getHolidaysForYear], call 2, is
    in flight. *)
Definition found : World :=
  step (dates := IsoDate.local) searchingA
    (ValidateAndSearchSettles 1 (Resolved resultA)).

(** A person born on Christmas Day 1992. *)
Definition details1992 : IdDetails.t :=
  {| IdDetails.birthYear := Some 1992%Z;
     IdDetails.dateOfBirth := Some "1992-12-25";
     IdDetails.gender := Some "Female";
     IdDetails.isSACitizen := Some true;
     IdDetails.formattedDateOfBirth := Some "25 December 1992" |}.

(** The identity of [idA] with a date of birth no engine can read, and the
    server's own formatted text beside it. *)
Definition detailsUnreadable : IdDetails.t :=
  {| IdDetails.birthYear := Some 1980%Z;
     IdDetails.dateOfBirth := Some "soon";
     IdDetails.gender := Some "Male";
     IdDetails.isSACitizen := Some true;
     IdDetails.formattedDateOfBirth := Some "1 January 1980" |}.

Definition resultUnreadable : Result.t :=
  {| Result.isValid := true;
     Result.errorMessage := None;
     Result.idDetails := Some detailsUnreadable;
     Result.holidayResponse := Some holidays1980;
     Result.searchCount := Some 1%Z;
     Result.formattedIdNumber := Some "800101 4800 08 6" |}.

(** The search resolved with [resultUnreadable]. *)
Definition foundUnreadable : World :=
  step (dates := IsoDate.local) searchingA
    (ValidateAndSearchSettles 1 (Resolved resultUnreadable)).

End Scenario.

(** ** Reasoning about handlers *)

#[local] Arguments Nat.leb _ _ : simpl never.
#[local] Arguments Nat.ltb _ _ : simpl never.
#[local] Arguments Nat.eqb _ _ : simpl never.
#[local] Arguments Z.eqb _ _ : simpl never.
#[local] Arguments String.eqb _ _ : simpl never.
#[local] Arguments String.length _ : simpl never.
#[local] Arguments String.append _ _ : simpl never.

(** Unfold the methods down to the primitives of the monad, which [cbn]
    then runs on the world at hand. *)
Ltac js_unfold :=
  unfold step, handle, run_callback, reset, resetComponent, errorCallback,
    renderedCallback, disconnectedCallback, connectedCallback, handleKeyDown,
    searchWithId, searchWithId_resumed, handleSearch_resumed, handleSearch,
    processSuccessfulSearch, scrollToResults, handleRetryHolidays_resumed,
    handleRetryHolidays, checkHolidaysOnBirthDate, handleInputChange,
    performRealtimeValidation_resumed, performRealtimeValidation, showToast,
    console_error.

Ltac js_prims :=
  cbv beta iota zeta delta
    [bind ret throw try_catch try_catch_finally await not_awaited get assign
     setTimeout clearTimeout callApex dispatchEvent console_write settled
     fired this timers nextTimer inFlight nextCall calls toasts console
     callback delay fst snd negb orb andb];
  cbn [idNumber isValidId isValidating isSearching hasResults hasError
       errorMessage validationMessage searchResults validationTimeout
       idDetails holidayResponse searchCount formattedIdNumber
       holidaysOnBirthDate
       set_idNumber set_isValidId set_isValidating set_isSearching
       set_hasResults set_hasError set_errorMessage set_validationMessage
       set_searchResults set_validationTimeout set_idDetails
       set_holidayResponse set_searchCount set_formattedIdNumber
       set_holidaysOnBirthDate].

(** Name the parts of a world, so that its projections compute. *)
Ltac js_world w :=
  destruct w as [c tms ntm flt ncl cls tst cns];
  cbn [this timers nextTimer inFlight nextCall calls toasts console] in *.

Ltac js_run := js_unfold; js_prims.

(** Split on the conditions the code tests, in program order. *)
Ltac js_split :=
  match goal with
  | |- context [match ?x with _ => _ end] =>
      lazymatch x with
      | context [match _ with _ => _ end] => fail
      | _ => destruct x eqn:?
      end
  end.

Ltac js_cases := repeat (first [ progress js_prims | js_split ]).

Lemma truthy_string_nonempty (s : string) :
  (0 < String.length s)%nat → Js.truthy_string s = true.
Proof. destruct s; [intros H; by apply Nat.lt_irrefl in H | done]. Qed.

Section Handlers.

Context {dates : LocalDate}.

(** No handler lets an exception escape to the page. *)
Lemma handle_completes_normally (e : Event) (w : World) :
  (handle e w).1 = Normal tt.
Proof.
  js_world w; destruct e; try destruct o; js_run; js_cases; done.
Qed.

(** ** Format validation (lines 69-86) *)

(** C7. When the promise of [validateIdFormat] settles, the continuation of
    [performRealtimeValidation] ends normally (nothing is rethrown),
    [isValidating] is false, and: resolved with a boolean, [isValidId] is
    that boolean and the message says valid or invalid; rejected,
    [isValidId] is false and the message is the generic one. *)
Theorem validation_settles (w : World) (id : nat) (caller : ValidationCaller)
    (o : Outcome bool) :
  inFlight w !! id = Some (InPerformRealtimeValidation caller) →
  let w' := step w (ValidateIdFormatSettles id o) in
  (handle (ValidateIdFormatSettles id o) w).1 = Normal tt
  ∧ (performRealtimeValidation_resumed o (settled id w)).1 = Normal tt
  ∧ isValidating (this w') = false
  ∧ match o with
    | Resolved isValid =>
        isValidId (this w') = isValid
        ∧ validationMessage (this w') =
            (if isValid then "Valid SA ID Number ✓"
             else "Invalid SA ID Number format")
    | Rejected _ =>
        isValidId (this w') = false
        ∧ validationMessage (this w') = "Validation error occurred"
    end.
Proof.
  intros Hin w'. subst w'.
  split; [apply handle_completes_normally|].
  js_world w.
  destruct caller, o as [[]|]; js_run; rewrite ?Hin; js_cases; done.
Qed.

(** ** The search (lines 91-118) *)

(** C2. Whichever way the promise of [validateAndSearch] settles,
    [isSearching] is false afterwards; when it rejects, [hasError] is true,
    [errorMessage] is the generic text and exactly one toast, the error
    toast, has been dispatched. *)
Theorem search_settles (w : World) (id : nat) (o : Outcome Result.t) :
  inFlight w !! id = Some InHandleSearch →
  let w' := step w (ValidateAndSearchSettles id o) in
  isSearching (this w') = false
  ∧ (∀ error, o = Rejected error →
       hasError (this w') = true
       ∧ errorMessage (this w') =
           "An unexpected error occurred. Please try again."
       ∧ toasts w' = toasts w ++ [searchFailedToast]).
Proof.
  intros Hin w'. subst w'.
  js_world w.
  destruct o as [r|e]; js_run; rewrite Hin; js_cases;
    (split; [done | intros error [=]; subst; done]).
Qed.

(** ** The dependent holiday retrieval (lines 172-187) *)

(** C6. A rejected [getHolidaysForYear] changes no field of the component
    and starts no call; it dispatches the failure toast.  In particular,
    after a search that passed the guard and resolved valid with a birth
    year, the rejection leaves [hasResults] true, [hasError] false and
    [errorMessage] empty, and [holidaysOnBirthDate] is what it was before
    the search. *)
Theorem holiday_failure_keeps_search_state :
  (∀ (w : World) (id : nat) (error : Error),
     inFlight w !! id = Some InHandleRetryHolidays →
     let w' := step w (GetHolidaysForYearSettles id (Rejected error)) in
     this w' = this w
     ∧ calls w' = calls w
     ∧ toasts w' = toasts w ++ [holidaysFailedToast])
  ∧ (∀ (w : World) (r : Result.t) (d : IdDetails.t) (y : Z) (error : Error),
       isValidId (this w) = true →
       isSearching (this w) = false →
       Result.isValid r = true →
       Result.idDetails r = Some d →
       IdDetails.birthYear d = Some y →
       y ≠ 0%Z →
       let w1 :=
         run w [SearchClick;
                ValidateAndSearchSettles (nextCall w) (Resolved r)] in
       let w2 :=
         step w1
           (GetHolidaysForYearSettles (S (nextCall w)) (Rejected error)) in
       calls w1 =
         calls w ++ [validateAndSearch (idNumber (this w));
                     getHolidaysForYear y]
       ∧ hasResults (this w1) = true
       ∧ this w2 = this w1
       ∧ hasResults (this w2) = true
       ∧ hasError (this w2) = false
       ∧ errorMessage (this w2) = ""
       ∧ holidaysOnBirthDate (this w2) = holidaysOnBirthDate (this w)
       ∧ toasts w2 = toasts w ++ [holidaysFailedToast]).
Proof.
  split.
  - intros w id error Hin w'. subst w'. js_world w.
    js_run. rewrite Hin. js_cases. done.
  - intros w r d y error Hv Hs Hr Hd Hy Hy0 w1 w2. subst w2 w1.
    js_world w. unfold run. cbn [foldl].
    apply Z.eqb_neq in Hy0.
    js_run. rewrite Hv, Hs. js_prims. rewrite lookup_insert_eq. js_prims.
    rewrite Hr. js_prims. rewrite Hd. cbn [Js.or_else]. js_prims.
    rewrite Hy. unfold Js.truthy_number. rewrite Hy0. js_prims.
    rewrite lookup_insert_eq. js_prims.
    rewrite <- !app_assoc. done.
Qed.

(** ** Input handling (lines 31-55) *)

(** C4, as the code has it. An input of ten characters or more (so also one
    of 10 to 12) leaves the validation message empty, sets [isValidating]
    and schedules the debounced format check 500 ms ahead, keeping its handle
    in [validationTimeout]; the message about the length is shown for a
    non-empty input of fewer than ten characters, for which nothing is
    scheduled.  Neither starts an Apex call. *)
Theorem input_length_threshold (w : World) (text : string) :
  let w' := step w (InputChange text) in
  ((10 ≤ String.length text)%nat →
     validationMessage (this w') = ""
     ∧ isValidating (this w') = true
     ∧ validationTimeout (this w') = Some (nextTimer w)
     ∧ timers w' !! nextTimer w =
         Some {| callback := DebouncedValidation; delay := 500 |}
     ∧ calls w' = calls w)
  ∧ ((0 < String.length text < 10)%nat →
     validationMessage (this w') = "ID number must be 13 digits long"
     ∧ isValidating (this w') = false
     ∧ isValidId (this w') = false
     ∧ nextTimer w' = nextTimer w
     ∧ timers w' ⊆ timers w
     ∧ calls w' = calls w).
Proof.
  intros w'. subst w'. js_world w. split.
  - intros Hlen.
    assert (Ht : Js.truthy_string text = true)
      by (apply truthy_string_nonempty; lia).
    apply Nat.leb_le in Hlen.
    js_run.
    destruct (validationTimeout c) as [h|];
      [destruct (Js.truthy_handle h)|];
      js_prims; rewrite Ht, Hlen; js_prims;
      rewrite lookup_insert_eq; done.
  - intros [Hpos Hlen].
    assert (Hge : (10 <=? String.length text)%nat = false)
      by (apply Nat.leb_gt; lia).
    assert (H13 : (String.length text <? 13)%nat = true)
      by (apply Nat.ltb_lt; lia).
    apply Nat.ltb_lt in Hpos.
    js_run.
    destruct (validationTimeout c) as [h|];
      [destruct (Js.truthy_handle h)|];
      js_prims; rewrite Hge, Hpos, H13; destruct (Js.truthy_string text);
      js_prims; repeat split; try done; apply delete_subseteq.
Qed.

End Handlers.

(** ** Invariants of the event loop *)

#[local] Set Warnings "-clear-no-such-hyp".

Ltac lookups :=
  repeat match goal with
    | H : <[_:=_]> _ !! _ = Some _ |- _ => apply lookup_insert_Some in H
    | H : delete _ _ !! _ = Some _ |- _ => apply lookup_delete_Some in H
    | H : _ ∧ _ |- _ => destruct H
    | H : _ ∨ _ |- _ => destruct H
    | H : ∃ _, _ |- _ => destruct H
    end.

Lemma truthy_handle_false (h : nat) : Js.truthy_handle h = false → h = 0.
Proof.
  unfold Js.truthy_handle. intros H%negb_false_iff. by apply Nat.eqb_eq.
Qed.

Section Invariants.

Context {dates : LocalDate}.

Lemma reachable_by_run (ok : World → Event → Prop) (es : list Event) :
  ∀ w, reachable_by ok w → all_ok ok w es → reachable_by ok (run w es).
Proof.
  induction es as [|e es IH]; intros w Hw Hes; [done|].
  destruct Hes as [He Hes]. apply (IH (step w e)); [by constructor|done].
Qed.

Lemma allowed_undisturbed (w : World) (e : Event) :
  allowed w e → undisturbed w e.
Proof. destruct e; cbn; tauto. Qed.

(** *** The debounce timer *)

Lemma debounce_owned_step (w : World) (e : Event) :
  debounce_owned w → debounce_owned (step w e).
Proof.
  unfold debounce_owned. js_world w. intros (Hn & Hv & Ht).
  destruct e; try destruct o; js_run; js_cases.
  all: repeat split; try done.
  all: try (intros h' [= <-]; done).
  all: try (intros h' t'; rewrite ?lookup_insert_Some, ?lookup_delete_Some;
            naive_solver).
  all: match goal with
       | H : Js.truthy_handle _ = false |- _ =>
           apply truthy_handle_false in H; naive_solver
       end.
Qed.

Lemma debounce_owned_reachable (w : World) :
  reachable_by any_event w → debounce_owned w.
Proof.
  induction 1 as [|w e _ IH _]; [|by apply debounce_owned_step].
  repeat split; cbn; try done.
Qed.

Lemma quiet_timer (w : World) (h : nat) :
  no_debounce_pending w →
  no_debounce_pending (step w (TimerFires h))
  ∧ calls (step w (TimerFires h)) = calls w
  ∧ this (step w (TimerFires h)) = this w.
Proof.
  unfold no_debounce_pending. js_world w. intros Hno. js_run.
  destruct (tms !! h) as [[cb ms]|] eqn:Hh; [|done].
  destruct cb; [by destruct (Hno h _ Hh)| |]; cbn [callback]; js_prims;
    (split; [|done]); intros h' t' Hl; lookups; eauto.
Qed.

Lemma quiet_timers (hs : list nat) :
  ∀ w, no_debounce_pending w →
       calls (run w (TimerFires <$> hs)) = calls w
       ∧ this (run w (TimerFires <$> hs)) = this w.
Proof.
  induction hs as [|h hs IH]; intros w Hno; [done|].
  destruct (quiet_timer w h Hno) as (Hno' & Hc & Ht).
  destruct (IH _ Hno') as [Hc' Ht']. cbn [fmap list_fmap run foldl].
  unfold run in Hc', Ht'. by rewrite Hc', Ht'.
Qed.

(** *** The search guard *)

Lemma guard_tracks_search_step (w : World) (e : Event) :
  undisturbed w e → guard_tracks_search w → guard_tracks_search (step w e).
Proof.
  unfold guard_tracks_search, undisturbed, searching. js_world w.
  intros Hok (Hfresh & Hone & [Hflag1 Hflag2]).
  destruct e; try destruct o; js_run; js_cases.
  all: split; [| split; [| split]].
  all: try done.
  all: try (intros _; by apply Hflag1).
  all: try (intros i k Hl; lookups; subst;
            first [lia | (assert (i < ncl) by eauto; lia)]).
  all: try (intros i j Hi Hj; lookups; subst; try done;
            try (by eapply Hone);
            enough (false = true) by done; apply Hflag2; eauto).
  all: try (intros Hs; exists ncl; by rewrite lookup_insert_eq).
  all: try (intros Hs; apply Hflag1 in Hs as [id Hid];
            exists id;
            rewrite ?lookup_insert_ne, ?lookup_delete_ne; try done;
            try (apply Hfresh in Hid; lia);
            congruence).
  all: try (intros [id Hid]; lookups; subst; try done;
            try (apply Hflag2; eauto; fail);
            exfalso; eauto;
            match goal with
            | H : ?a ≠ ?b |- _ => apply H; by eapply Hone
            end).
  all: intros _; destruct Hflag1 as [id Hid]; [done|]; exists id;
    rewrite lookup_delete_ne; congruence.
Qed.

Lemma guard_tracks_search_reachable (w : World) :
  reachable_by undisturbed w → guard_tracks_search w.
Proof.
  induction 1 as [|w e _ IH Hok].
  - unfold guard_tracks_search, searching. cbn.
    split; [|split; [|split]].
    + intros i k. by rewrite lookup_empty.
    + intros i j. by rewrite lookup_empty.
    + done.
    + intros [id Hid]. by rewrite lookup_empty in Hid.
  - by apply guard_tracks_search_step.
Qed.

(** *** The two result flags *)

Lemma exclusive_step (w : World) (e : Event) :
  allowed w e → guard_tracks_search w →
  flags_clear_while_searching w ∧ exclusive w →
  flags_clear_while_searching (step w e) ∧ exclusive (step w e).
Proof.
  unfold guard_tracks_search, flags_clear_while_searching, exclusive,
    allowed, searching.
  js_world w.
  intros Hok (Hfresh & Hone & [Hflag1 Hflag2]) [Hclear Hex].
  destruct e; try destruct o; js_run; js_cases.
  all: split.
  all: try done.
  all: try (intros [id Hid]; lookups; subst; try done;
            try (by (apply Hclear; eauto));
            try (by (split; [done | apply Hclear; eauto]));
            try (by (split; [apply Hclear; eauto | done]));
            exfalso; try (by (apply Hok; eauto));
            match goal with
            | H : ?a ≠ ?b |- _ => apply H; by eapply Hone
            end).
  all: try (by (apply Hclear; eauto)).
  all: try (intros Hs; destruct (Hclear Hs); congruence).
  all: try (destruct Hok as [Hn Hr]; congruence).
  all: intros Hs; destruct Hok as [Hn _]; by destruct Hn.
Qed.

Lemma exclusive_reachable (w : World) :
  reachable_by allowed w →
  guard_tracks_search w ∧ flags_clear_while_searching w ∧ exclusive w.
Proof.
  induction 1 as [|w e Hw IH Hok].
  - split; [apply guard_tracks_search_reachable; constructor|].
    split; [|done]. intros [id Hid]. cbn in Hid.
    by rewrite lookup_empty in Hid.
  - destruct IH as [Hg IH]. split.
    + apply guard_tracks_search_step; [by apply allowed_undisturbed|done].
    + by apply exclusive_step.
Qed.

Lemma flags_false_before_completion (w : World) :
  reachable_by no_completion w →
  hasResults (this w) = false ∧ hasError (this w) = false.
Proof.
  induction 1 as [|w e _ IH Hok]; [done|].
  js_world w. destruct IH as [Hr He].
  destruct e; try done; try destruct o; js_run; js_cases; done.
Qed.

Lemma exclusive_other_events (w : World) (e : Event) :
  no_completion w e → exclusive w → exclusive (step w e).
Proof.
  unfold exclusive. js_world w. intros Hok Hex.
  destruct e; try done; try destruct o; js_run; js_cases;
    rewrite ?andb_false_r; done.
Qed.

End Invariants.

(** ** Reset (lines 357-376 and 402-405) *)

Section Claims.

Context {dates : LocalDate}.

(** C9. In every reachable state [reset()] puts each tracked field back to
    the value the class body initialises it with (the debounce handle
    [validationTimeout], a plain field, keeps its number) and leaves no
    pending timer that would run the format check: whatever timers fire
    afterwards, no Apex call is made and no field changes. *)
Theorem reset_restores_initial_state (w : World) :
  reachable_by any_event w →
  let w' := step w Reset in
  this w' = set_validationTimeout (validationTimeout (this w)) initial
  ∧ no_debounce_pending w'
  ∧ (∀ hs : list nat,
       calls (run w' (TimerFires <$> hs)) = calls w'
       ∧ this (run w' (TimerFires <$> hs)) = this w').
Proof.
  intros Hw%debounce_owned_reachable w'.
  assert (Hthis : this w' =
                  set_validationTimeout (validationTimeout (this w)) initial).
  { subst w'. js_world w. js_run. js_cases; destruct c; by simplify_eq/=. }
  assert (Hno : no_debounce_pending w').
  { subst w'. clear Hthis. destruct Hw as (_ & Hv & Ht).
    unfold no_debounce_pending. js_world w. js_run. js_cases.
    - intros h t Hl Hc. lookups. specialize (Ht _ _ H0 Hc). congruence.
    - apply truthy_handle_false in Heqb. subst. by destruct (Hv 0).
    - intros h t Hl Hc. by specialize (Ht _ _ Hl Hc). }
  split; [done|]. split; [done|]. intros hs. by apply quiet_timers.
Qed.

(** ** The guard of [handleSearch] (lines 91-99) *)

(** C3, as the code has it. [handleSearch] returns at once, with no call and
    no change, when [isValidId] is false or the flag [isSearching] is set.
    When it passes the guard it makes one call of [validateAndSearch], and a
    second invocation right after it is a no-op.  Along event sequences in
    which neither [reset()] nor the error boundary runs during a search, the
    flag is set exactly while a search is in flight: there [handleSearch] is
    a no-op whenever a search is in flight, and it makes its call whenever
    the identifier is valid and none is. *)
Theorem search_guard_on_flag :
  (∀ w : World,
     isValidId (this w) = false ∨ isSearching (this w) = true →
     handle SearchClick w = (Normal tt, w))
  ∧ (∀ w : World,
       isValidId (this w) = true → isSearching (this w) = false →
       let w1 := step w SearchClick in
       calls w1 = calls w ++ [validateAndSearch (idNumber (this w))]
       ∧ inFlight w1 !! nextCall w = Some InHandleSearch
       ∧ handle SearchClick w1 = (Normal tt, w1))
  ∧ (∀ w : World,
       reachable_by undisturbed w → searching w →
       handle SearchClick w = (Normal tt, w))
  ∧ (∀ w : World,
       reachable_by undisturbed w →
       isValidId (this w) = true → ¬ searching w →
       calls (step w SearchClick) =
       calls w ++ [validateAndSearch (idNumber (this w))]).
Proof.
  assert (Hnoop : ∀ w : World,
            isValidId (this w) = false ∨ isSearching (this w) = true →
            handle SearchClick w = (Normal tt, w)).
  { intros w H. js_world w. js_run. destruct H as [-> | ->]; [done|].
    by destruct (isValidId c). }
  assert (Hcall : ∀ w : World,
            isValidId (this w) = true → isSearching (this w) = false →
            let w1 := step w SearchClick in
            calls w1 = calls w ++ [validateAndSearch (idNumber (this w))]
            ∧ inFlight w1 !! nextCall w = Some InHandleSearch
            ∧ handle SearchClick w1 = (Normal tt, w1)).
  { intros w Hv Hs w1. subst w1. js_world w. js_run. rewrite Hv, Hs.
    js_prims. rewrite lookup_insert_eq. by destruct (isValidId _). }
  split; [done|]. split; [done|]. split.
  - intros w Hw%guard_tracks_search_reachable Hs.
    apply Hnoop. right. by apply Hw.
  - intros w Hw%guard_tracks_search_reachable Hv Hs.
    apply Hcall; [done|]. destruct Hw as (_ & _ & Hflag).
    destruct (isSearching (this w)); [|done]. destruct Hs. by apply Hflag.
Qed.

(** ** The two result flags *)

(** C1, as the code has it. Both flags are false in a fresh component and
    stay false until a search completes or the error boundary runs.  Every
    event other than those two keeps at most one flag set.  At most one flag
    is set in every state reached by events among which [reset()] runs only
    while no search is in flight and the error boundary only while no search
    is in flight and no result is shown. *)
Theorem result_flags_exclusive :
  (hasResults initial = false ∧ hasError initial = false)
  ∧ (∀ w : World,
       reachable_by no_completion w →
       hasResults (this w) = false ∧ hasError (this w) = false)
  ∧ (∀ (w : World) (e : Event),
       no_completion w e → exclusive w → exclusive (step w e))
  ∧ (∀ w : World, reachable_by allowed w → exclusive w).
Proof.
  split; [done|]. split; [apply flags_false_before_completion|].
  split; [apply exclusive_other_events|].
  intros w Hw. by apply exclusive_reachable.
Qed.

(** ** The cross-reference (lines 152-167) *)

Lemma retrieval_recomputes (w : World) (id : nat) (r : HolidayResponse) :
  inFlight w !! id = Some InHandleRetryHolidays →
  consistent (step w (GetHolidaysForYearSettles id (Resolved r))).
Proof.
  intros Hin. unfold consistent, crossReference, birthDateString.
  js_world w. js_run. rewrite Hin. js_cases; simplify_eq; try done;
    congruence.
Qed.

(** C5, as the code has it. [holidaysOnBirthDate] is a stored field.  It is
    the cross-reference of the stored [idDetails] and [holidayResponse] in a
    fresh component, after [reset()] and after every resolved
    [getHolidaysForYear], and every event keeps it so except a search that
    resolves valid, which assigns both inputs without recomputing it. *)
Theorem cross_reference_recomputed :
  consistent created
  ∧ (∀ w : World, consistent (step w Reset))
  ∧ (∀ (w : World) (id : nat) (r : HolidayResponse),
       inFlight w !! id = Some InHandleRetryHolidays →
       consistent (step w (GetHolidaysForYearSettles id (Resolved r))))
  ∧ (∀ (w : World) (e : Event),
       replaces_inputs e = false → consistent w → consistent (step w e)).
Proof.
  split; [done|]. split.
  { intros w. unfold consistent. js_world w. js_run. js_cases; done. }
  split; [apply retrieval_recomputes|].
  intros w e He Hw.
  destruct e as [| | | | | | |id [r|err]| | | | | |]; cycle 7.
  { destruct (inFlight w !! id) as [k|] eqn:Hin.
    - destruct k; [| |by apply retrieval_recomputes];
        unfold consistent in *; js_world w; js_run; by rewrite Hin.
    - unfold consistent in *; js_world w; js_run; by rewrite Hin. }
  all: unfold consistent in *; js_world w; cbn [replaces_inputs] in He.
  all: try destruct o; js_run; js_cases; done.
Qed.

(** ** The public [searchWithId] (lines 381-389) *)

(** C10. [searchWithId(x)] assigns [idNumber] and calls [validateIdFormat]
    with [x]; it leaves [hasError], [errorMessage], [validationMessage], the
    debounce handle and the timer table as they are, so that a pending
    debounce callback, when it fires, calls [validateIdFormat] again with
    [x].  An input event, in contrast, clears [hasError] and [errorMessage]
    and cancels the timer its handle names. *)
Theorem searchWithId_keeps_messages_and_timer (w : World) (x : string) :
  let w' := step w (SearchWithId x) in
  idNumber (this w') = x
  ∧ calls w' = calls w ++ [validateIdFormat x]
  ∧ inFlight w' !! nextCall w =
      Some (InPerformRealtimeValidation FromSearchWithId)
  ∧ hasError (this w') = hasError (this w)
  ∧ errorMessage (this w') = errorMessage (this w)
  ∧ validationMessage (this w') = validationMessage (this w)
  ∧ validationTimeout (this w') = validationTimeout (this w)
  ∧ timers w' = timers w
  ∧ (∀ h t, timers w !! h = Some t → callback t = DebouncedValidation →
       calls (step w' (TimerFires h)) = calls w' ++ [validateIdFormat x])
  ∧ (∀ text,
       let wi := step w (InputChange text) in
       hasError (this wi) = false
       ∧ errorMessage (this wi) = ""
       ∧ (∀ h, validationTimeout (this w) = Some h → h ≠ 0 →
               h ≠ nextTimer w → timers wi !! h = None)).
Proof.
  intros w'. subst w'. js_world w. js_run.
  rewrite lookup_insert_eq. repeat split.
  - intros h [cb ms] Hl Hc. cbn in Hc. subst cb. js_run. rewrite Hl. done.
  - js_cases; done.
  - js_cases; done.
  - intros h Hh H0 Hn. rewrite Hh.
    destruct (Js.truthy_handle h) eqn:Ht;
      [|by apply truthy_handle_false in Ht].
    js_cases; rewrite ?lookup_insert_ne by done; by rewrite lookup_delete_eq.
Qed.

(** ** The formatted date of birth (lines 254-268) *)

(** C8. In an engine that follows ECMAScript the getter throws nothing and
    returns the empty text when [dateOfBirth] is absent or empty, but it
    does not fall back for a malformed date: for a date of birth the engine
    cannot read it returns ['Invalid Date'], whatever pre-formatted text
    the server supplied, because formatting an invalid date does not throw
    and the [catch] of line 265 is not entered.  A date the engine can
    read gives the engine's text. *)
Theorem formattedDateOfBirth_unreadable_date
    (localeText : string → string) (w : World) :
  (∃ text : string,
     formattedDateOfBirth (Date_toLocaleDateString localeText) w =
       (Normal text, w))
  ∧ (Js.truthy_opt Js.truthy_string
       (IdDetails.dateOfBirth (idDetails (this w))) = false →
     formattedDateOfBirth (Date_toLocaleDateString localeText) w =
       (Normal "", w))
  ∧ (∀ d : string,
       IdDetails.dateOfBirth (idDetails (this w)) = Some d →
       Js.truthy_string d = true →
       Date_getDate d = None →
       formattedDateOfBirth (Date_toLocaleDateString localeText) w =
         (Normal "Invalid Date", w))
  ∧ (∀ (d : string) (day : nat),
       IdDetails.dateOfBirth (idDetails (this w)) = Some d →
       Js.truthy_string d = true →
       Date_getDate d = Some day →
       formattedDateOfBirth (Date_toLocaleDateString localeText) w =
         (Normal (localeText d), w)).
Proof.
  js_world w. unfold formattedDateOfBirth, Date_toLocaleDateString. js_prims.
  destruct (IdDetails.dateOfBirth (idDetails c)) as [d|] eqn:Hd; cbn.
  - destruct (Js.truthy_string d) eqn:Ht.
    + destruct (Date_getDate d) as [day|] eqn:Hday; js_prims;
        (split; [by eexists|]); (split; [done|]);
        split; intros; simplify_eq; congruence.
    + js_prims. split; [by eexists|]. split; [done|].
      split; intros; congruence.
  - js_prims. split; [by eexists|]. split; [done|]. split; intros; simplify_eq.
Qed.

(** X21. Whatever [idDetails] holds and whatever the formatter does, the
    getter returns a text and throws nothing: the empty text when
    [dateOfBirth] is absent or empty, the formatter's text when it returns
    one, and, should the formatter throw, the server's
    [formattedDateOfBirth], or the empty text if that is absent or empty. *)
Theorem formattedDateOfBirth_never_throws
    (toLocaleDateString : string → Outcome string) (w : World) :
  ∃ text : string,
    formattedDateOfBirth toLocaleDateString w = (Normal text, w)
    ∧ (Js.truthy_opt Js.truthy_string
         (IdDetails.dateOfBirth (idDetails (this w))) = false →
       text = "")
    ∧ (∀ d, IdDetails.dateOfBirth (idDetails (this w)) = Some d →
            Js.truthy_string d = true →
            match toLocaleDateString d with
            | Resolved formatted => text = formatted
            | Rejected _ =>
                text =
                Js.or_else Js.truthy_string
                  (IdDetails.formattedDateOfBirth (idDetails (this w))) ""
            end).
Proof.
  js_world w. unfold formattedDateOfBirth. js_prims.
  destruct (IdDetails.dateOfBirth (idDetails c)) as [d|] eqn:Hd; cbn.
  - destruct (Js.truthy_string d) eqn:Ht.
    + destruct (toLocaleDateString d) as [v|e] eqn:Hf; js_prims;
        (eexists; split; [done|]); (split; [done|]);
        intros d' [= <-] _; by rewrite Hf.
    + js_prims. eexists. split; [done|]. split; [done|].
      intros d' [= <-]. congruence.
  - js_prims. eexists. split; [done|]. split; [done|]. done.
Qed.

(** ** Further properties of the debouncer and of the error handling *)


Lemma input_makes_no_call (w : World) (text : string) :
  calls (step w (InputChange text)) = calls w.
Proof. js_world w. js_run. js_cases; done. Qed.

Lemma input_schedules (w : World) (text : string) :
  (10 ≤ String.length text)%nat →
  let w' := step w (InputChange text) in
  idNumber (this w') = text
  ∧ validationTimeout (this w') = Some (nextTimer w)
  ∧ timers w' !! nextTimer w =
      Some {| callback := DebouncedValidation; delay := 500 |}.
Proof.
  intros Hlen w'. subst w'. js_world w.
  assert (Ht : Js.truthy_string text = true)
    by (apply truthy_string_nonempty; lia).
  apply Nat.leb_le in Hlen. js_run.
  destruct (validationTimeout c) as [h|];
    [destruct (Js.truthy_handle h)|];
    js_prims; rewrite Ht, Hlen; js_prims;
    rewrite lookup_insert_eq; done.
Qed.

Lemma debounce_fires (w : World) (h : nat) (t : Timer) :
  timers w !! h = Some t → callback t = DebouncedValidation →
  calls (step w (TimerFires h)) =
  calls w ++ [validateIdFormat (idNumber (this w))].
Proof.
  intros Hh Ht. destruct t as [cb ms]. cbn in Ht. subst cb.
  js_world w. js_run. by rewrite Hh.
Qed.

(** X1. Whatever the event, the code it runs ends normally: a rejected promise
    and a throwing continuation are caught inside the component. *)
Theorem no_error_leaves_the_component (e : Event) (w : World) :
  (handle e w).1 = Normal tt.
Proof. apply handle_completes_normally. Qed.

(** X2. In every reachable state at most one pending timer would run the
    format check. *)
Theorem one_debounce_timer_pending (w : World) (h h' : nat) (t t' : Timer) :
  reachable_by any_event w →
  timers w !! h = Some t → callback t = DebouncedValidation →
  timers w !! h' = Some t' → callback t' = DebouncedValidation →
  h = h'.
Proof.
  intros (_ & _ & Hown)%debounce_owned_reachable Hh Ht Hh' Ht'.
  pose proof (Hown _ _ Hh Ht) as H1. pose proof (Hown _ _ Hh' Ht') as H2.
  congruence.
Qed.

(** X3. An input shorter than ten characters, in any reachable state, leaves
    [isValidating] false, starts no Apex call and leaves no format check
    scheduled. *)
Theorem short_input_schedules_nothing (w : World) (text : string) :
  reachable_by any_event w →
  (String.length text < 10)%nat →
  let w' := step w (InputChange text) in
  isValidating (this w') = false
  ∧ isValidId (this w') = false
  ∧ calls w' = calls w
  ∧ no_debounce_pending w'.
Proof.
  intros (_ & Hv & Hown)%debounce_owned_reachable Hlen w'. subst w'.
  assert (Hge : (10 <=? String.length text)%nat = false)
    by (apply Nat.leb_gt; lia).
  unfold no_debounce_pending. js_world w. js_run.
  destruct (validationTimeout c) as [h|] eqn:Hvt;
    [destruct (Js.truthy_handle h) eqn:Hth|];
    js_prims; rewrite Hge; destruct (Js.truthy_string text);
    js_cases; repeat split; try done.
  all: intros h' t' Hl Hc; lookups;
    try (apply truthy_handle_false in Hth; subst; by destruct (Hv 0));
    match goal with
    | H : _ !! _ = Some _ |- _ => specialize (Hown _ _ H Hc); congruence
    end.
Qed.

(** X4. Two inputs in a row, the second of ten characters or more: one format
    check is pending, and when its timer fires it is made with the text of
    the second input. *)
Theorem debounce_uses_the_last_text (w : World) (first last : string) :
  reachable_by any_event w →
  (10 ≤ String.length last)%nat →
  let w' := run w [InputChange first; InputChange last] in
  ∃ h,
    timers w' !! h = Some {| callback := DebouncedValidation; delay := 500 |}
    ∧ (∀ h' t', timers w' !! h' = Some t' →
                callback t' = DebouncedValidation → h' = h)
    ∧ calls w' = calls w
    ∧ calls (step w' (TimerFires h)) = calls w ++ [validateIdFormat last].
Proof.
  intros Hw Hlen w'. subst w'. unfold run. cbn [foldl].
  assert (Hw' : reachable_by any_event
                 (step (step w (InputChange first)) (InputChange last)))
    by (by repeat constructor).
  pose proof (input_makes_no_call w first) as Hc1.
  pose proof (input_makes_no_call (step w (InputChange first)) last) as Hc2.
  destruct (input_schedules (step w (InputChange first)) last Hlen)
    as (Hid & Hvt & Htm).
  exists (nextTimer (step w (InputChange first))).
  split; [done|]. split.
  - intros h' t' Hh' Ht'.
    apply debounce_owned_reachable in Hw' as (_ & _ & Hown).
    specialize (Hown _ _ Hh' Ht'). congruence.
  - split; [congruence|].
    rewrite (debounce_fires _ _ _ Htm eq_refl). congruence.
Qed.

End Claims.

(** ** Keyboard, stale validity and late responses *)

Section Races.

Context {dates : LocalDate}.

(** X5. The Enter key does what a click on the search button does, except
    while a format check is in flight, when it does nothing; any other key
    does nothing. *)
Theorem enter_key_is_click_unless_validating (w : World) (key : string) :
  step w (KeyDown key) =
  if String.eqb key "Enter" && negb (isValidating (this w))
  then step w SearchClick
  else w.
Proof.
  js_world w. js_run. unfold isSearchDisabled. js_cases; done.
Qed.

(** X6. An input of ten characters or more does not clear [isValidId]: if
    the previous text was valid and no search is flagged, [handleSearch]
    called before the debounce fires sends the new, unchecked text, while
    the Enter key is ignored. *)
Theorem long_input_keeps_validity (w : World) (text : string) :
  (10 ≤ String.length text)%nat →
  let w1 := step w (InputChange text) in
  isValidId (this w1) = isValidId (this w)
  ∧ isValidating (this w1) = true
  ∧ step w1 (KeyDown "Enter") = w1
  ∧ (isValidId (this w) = true → isSearching (this w) = false →
     calls (step w1 SearchClick) = calls w ++ [validateAndSearch text]).
Proof.
  intros Hlen w1. subst w1.
  assert (Ht : Js.truthy_string text = true)
    by (apply truthy_string_nonempty; lia).
  apply Nat.leb_le in Hlen. js_world w. js_run. unfold isSearchDisabled.
  destruct (validationTimeout c) as [h|];
    [destruct (Js.truthy_handle h)|];
    js_prims; rewrite Ht, Hlen; js_prims;
    (split; [done|]); (split; [done|]);
    (split; [by destruct (isValidId c), (isSearching c)|]);
    intros -> ->; done.
Qed.

(** X7. The answer of [validateIdFormat] is applied to whatever text is
    current: when a longer text is typed while a check is in flight, the
    late answer sets [isValidId] for the new text and clears
    [isValidating], although the check of the new text is still only
    scheduled. *)
Theorem late_validation_answer_marks_new_text
    (w : World) (id : nat) (text : string) (answer : bool) :
  inFlight w !! id = Some (InPerformRealtimeValidation FromDebounce) →
  (10 ≤ String.length text)%nat →
  let w' :=
    run w [InputChange text; ValidateIdFormatSettles id (Resolved answer)] in
  idNumber (this w') = text
  ∧ isValidId (this w') = answer
  ∧ isValidating (this w') = false
  ∧ timers w' !! nextTimer w =
      Some {| callback := DebouncedValidation; delay := 500 |}
  ∧ calls w' = calls w.
Proof.
  intros Hin Hlen w'. subst w'. unfold run. cbn [foldl].
  assert (Ht : Js.truthy_string text = true)
    by (apply truthy_string_nonempty; lia).
  apply Nat.leb_le in Hlen. js_world w. js_run.
  destruct (validationTimeout c) as [h|];
    [destruct (Js.truthy_handle h)|];
    js_prims; rewrite Ht, Hlen; js_prims; rewrite Hin; js_prims;
    destruct answer; js_prims; rewrite lookup_insert_eq; done.
Qed.

(** X8. [reset()] does not cancel a search in flight: when the search then
    resolves valid, its result is committed into the cleared component,
    which shows results for an empty, not validated input. *)
Theorem late_search_result_survives_reset
    (w : World) (id : nat) (result : Result.t) :
  inFlight w !! id = Some InHandleSearch →
  Result.isValid result = true →
  let w' := run w [Reset; ValidateAndSearchSettles id (Resolved result)] in
  hasResults (this w') = true
  ∧ hasError (this w') = false
  ∧ idNumber (this w') = ""
  ∧ isValidId (this w') = false
  ∧ idDetails (this w') =
      Js.or_else (λ _, true) (Result.idDetails result) IdDetails.empty
  ∧ holidayResponse (this w') =
      Js.or_else (λ _, true) (Result.holidayResponse result)
        emptyHolidayResponse.
Proof.
  intros Hin Hv w'. subst w'. unfold run. cbn [foldl].
  js_world w. js_run.
  destruct (validationTimeout c) as [h|];
    [destruct (Js.truthy_handle h)|];
    js_prims; rewrite Hin; js_prims; rewrite Hv; js_cases; done.
Qed.

End Races.

(** ** What a settled search leaves behind *)

Section Results.

Context {dates : LocalDate}.

(** X9. A search that resolves valid commits the result, with [{}], [0] and
    [''] for what the server left out, so that [getCurrentResults] returns
    it with [hasResults] true; it dispatches no toast, schedules the scroll
    to the results 300 ms ahead, and calls [getHolidaysForYear] for the
    birth year exactly when the result has a non-zero one.  The stored
    cross-reference and the error fields are not touched. *)
Theorem valid_result_is_committed
    (w : World) (id : nat) (result : Result.t) :
  inFlight w !! id = Some InHandleSearch →
  Result.isValid result = true →
  let w' := step w (ValidateAndSearchSettles id (Resolved result)) in
  let details :=
    Js.or_else (λ _, true) (Result.idDetails result) IdDetails.empty in
  getCurrentResults (this w') =
    (details,
     Js.or_else (λ _, true) (Result.holidayResponse result)
       emptyHolidayResponse,
     Js.or_else Js.truthy_number (Result.searchCount result) 0%Z,
     isValidId (this w), true)
  ∧ formattedIdNumber (this w') =
      Js.or_else Js.truthy_string (Result.formattedIdNumber result) ""
  ∧ holidaysOnBirthDate (this w') = holidaysOnBirthDate (this w)
  ∧ hasError (this w') = hasError (this w)
  ∧ errorMessage (this w') = errorMessage (this w)
  ∧ toasts w' = toasts w
  ∧ timers w' !! nextTimer w =
      Some {| callback := ScrollToResults; delay := 300 |}
  ∧ calls w' =
      calls w ++
      match IdDetails.birthYear details with
      | Some y => if Js.truthy_number y then [getHolidaysForYear y] else []
      | None => []
      end.
Proof.
  intros Hin Hv w' details. subst w' details. unfold getCurrentResults.
  js_world w. js_run. rewrite Hin. js_prims. rewrite Hv.
  js_cases; rewrite lookup_insert_eq, ?app_nil_r; done.
Qed.

(** X10. A search that resolves invalid sets [hasError] with the server's
    message, or ['Invalid SA ID Number'] when that is missing or empty; it
    dispatches no toast and makes no call, and the details, holidays and
    count of an earlier search stay in the component. *)
Theorem invalid_result_sets_server_message
    (w : World) (id : nat) (result : Result.t) :
  inFlight w !! id = Some InHandleSearch →
  Result.isValid result = false →
  let w' := step w (ValidateAndSearchSettles id (Resolved result)) in
  hasError (this w') = true
  ∧ errorMessage (this w') =
      Js.or_else Js.truthy_string (Result.errorMessage result)
        "Invalid SA ID Number"
  ∧ errorMessage (this w') ≠ ""
  ∧ hasResults (this w') = hasResults (this w)
  ∧ idDetails (this w') = idDetails (this w)
  ∧ holidayResponse (this w') = holidayResponse (this w)
  ∧ searchCount (this w') = searchCount (this w)
  ∧ holidaysOnBirthDate (this w') = holidaysOnBirthDate (this w)
  ∧ toasts w' = toasts w
  ∧ calls w' = calls w
  ∧ timers w' = timers w.
Proof.
  intros Hin Hv w'. subst w'.
  js_world w. js_run. rewrite Hin. js_prims. rewrite Hv. js_prims.
  repeat split.
  unfold Js.or_else. destruct (Result.errorMessage result) as [m|]; [|done].
  destruct (Js.truthy_string m) eqn:Hm; [|done].
  intros ->. done.
Qed.


Lemma retrieval_keeps_other_calls
    (w : World) (id j : nat) (o : Outcome HolidayResponse) :
  j ≠ id →
  inFlight (step w (GetHolidaysForYearSettles id o)) !! j = inFlight w !! j.
Proof.
  intros Hj. js_world w. destruct o; js_run; js_cases;
    rewrite ?lookup_delete_ne by done; done.
Qed.

Lemma retrieval_stores_answer
    (w : World) (id : nat) (answer : HolidayResponse) :
  inFlight w !! id = Some InHandleRetryHolidays →
  holidayResponse
    (this (step w (GetHolidaysForYearSettles id (Resolved answer)))) =
  answer.
Proof. intros Hin. js_world w. js_run. rewrite Hin. js_cases; done. Qed.

(** X11. [handleRetryHolidays] does nothing without a non-zero birth year.
    With one it is not guarded: two invocations make two calls, and
    the answer that arrives last is the one kept, even if it belongs to the
    earlier call. *)
Theorem retry_is_not_guarded :
  (∀ w : World,
     Js.truthy_opt Js.truthy_number
       (IdDetails.birthYear (idDetails (this w))) = false →
     step w RetryClick = w)
  ∧ (∀ (w : World) (y : Z) (first second : HolidayResponse),
       IdDetails.birthYear (idDetails (this w)) = Some y → y ≠ 0%Z →
       let w2 := run w [RetryClick; RetryClick] in
       let w' :=
         run w2
           [GetHolidaysForYearSettles (S (nextCall w)) (Resolved second);
            GetHolidaysForYearSettles (nextCall w) (Resolved first)] in
       calls w2 = calls w ++ [getHolidaysForYear y; getHolidaysForYear y]
       ∧ this w2 = this w
       ∧ holidayResponse (this w') = first
       ∧ consistent w').
Proof.
  split.
  - intros w Hy. js_world w. js_run.
    destruct (IdDetails.birthYear (idDetails c)) as [y|]; [|done].
    cbn in Hy. by rewrite Hy.
  - intros w y r1 r2 Hy Hy0 w2 w'.
    apply Z.eqb_neq in Hy0.
    assert (Ht : Js.truthy_number y = true)
      by (unfold Js.truthy_number; by rewrite Hy0).
    assert (H2 : calls w2 =
                 calls w ++ [getHolidaysForYear y; getHolidaysForYear y]
                 ∧ this w2 = this w
                 ∧ inFlight w2 !! nextCall w = Some InHandleRetryHolidays
                 ∧ inFlight w2 !! S (nextCall w) =
                     Some InHandleRetryHolidays).
    { subst w2. unfold run. cbn [foldl]. js_world w. js_run.
      rewrite Hy, Ht. js_prims. rewrite Hy, Ht. js_prims.
      rewrite <- !app_assoc, lookup_insert_eq.
      rewrite lookup_insert_ne by lia. by rewrite lookup_insert_eq. }
    destruct H2 as (Hc & Hthis & Hfirst & Hsecond).
    split; [done|]. split; [done|].
    subst w'. unfold run at 1 2. cbn [foldl].
    assert (Hstill :
      inFlight
        (step w2
           (GetHolidaysForYearSettles (S (nextCall w)) (Resolved r2)))
      !! nextCall w = Some InHandleRetryHolidays).
    { rewrite retrieval_keeps_other_calls by lia. done. }
    split; [by apply retrieval_stores_answer|by apply retrieval_recomputes].
Qed.

(** X12. A resolved [getHolidaysForYear] replaces [holidayResponse] by the
    answer and dispatches the success toast exactly when the answer says
    [success]; identity, flags, messages and calls stay as they are.
    Afterwards a holiday is in [holidaysOnBirthDate] exactly when it is in
    the answer's list, the date of birth is present and non-empty, and its
    [holidayDate] is the birth year joined with the two-digit month and day
    of the date of birth; the selection keeps the order of the list. *)
Theorem retrieval_selects_birth_date
    (w : World) (call : nat) (answer : HolidayResponse) :
  inFlight w !! call = Some InHandleRetryHolidays →
  let w' := step w (GetHolidaysForYearSettles call (Resolved answer)) in
  holidayResponse (this w') = answer
  ∧ idDetails (this w') = idDetails (this w)
  ∧ hasResults (this w') = hasResults (this w)
  ∧ hasError (this w') = hasError (this w)
  ∧ errorMessage (this w') = errorMessage (this w)
  ∧ calls w' = calls w
  ∧ toasts w' =
      toasts w ++
      (if Js.truthy_opt id (success answer)
       then [holidaysRetrievedToast] else [])
  ∧ (∀ h : Holiday,
       h ∈ holidaysOnBirthDate (this w') ↔
       ∃ dateOfBirth hs,
         IdDetails.dateOfBirth (idDetails (this w)) = Some dateOfBirth
         ∧ dateOfBirth ≠ ""
         ∧ holidays answer = Some hs
         ∧ h ∈ hs
         ∧ holidayDate h = birthDateString (idDetails (this w)) dateOfBirth)
  ∧ holidaysOnBirthDate (this w') `sublist_of` default [] (holidays answer)
  ∧ (length (holidaysOnBirthDate (this w')) ≤ holidayCount (this w'))%nat
  ∧ (hasHolidaysOnBirthDate (this w') = true ↔
     holidaysOnBirthDate (this w') ≠ []).
Proof.
  intros Hin w'.
  assert (Hcons : consistent w') by (by apply retrieval_recomputes).
  assert (Hframe :
    holidayResponse (this w') = answer
    ∧ idDetails (this w') = idDetails (this w)
    ∧ hasResults (this w') = hasResults (this w)
    ∧ hasError (this w') = hasError (this w)
    ∧ errorMessage (this w') = errorMessage (this w)
    ∧ calls w' = calls w
    ∧ toasts w' =
        toasts w ++
        (if Js.truthy_opt id (success answer)
         then [holidaysRetrievedToast] else [])).
  { subst w'. clear Hcons. js_world w. js_run. rewrite Hin.
    js_cases; rewrite ?app_nil_r; done. }
  destruct Hframe as (Hr & Hd & H1 & H2 & H3 & H4 & H5).
  unfold consistent in Hcons. rewrite Hr, Hd in Hcons.
  repeat (split; [done|]).
  unfold holidayCount, hasHolidaysOnBirthDate. rewrite Hr, Hcons.
  unfold crossReference.
  destruct (IdDetails.dateOfBirth (idDetails (this w))) as [dob|] eqn:Hdob.
  2: { split; [|split; [apply sublist_nil_l|split; [cbn; lia|done]]].
       intros h. split; [by intros ?%elem_of_nil|].
       by intros (? & ? & ? & _). }
  destruct (holidays answer) as [hs|] eqn:Hhs.
  2: { split; [|split; [apply sublist_nil_l|split; [cbn; lia|done]]].
       intros h. split; [by intros ?%elem_of_nil|].
       by intros (? & ? & _ & _ & ? & _). }
  destruct (Js.truthy_string dob) eqn:Ht.
  2: { split; [|split; [apply sublist_nil_l|split; [cbn; lia|done]]].
       intros h. split; [by intros ?%elem_of_nil|].
       intros (d' & ? & [= <-] & Hne & _).
       destruct dob; [done|discriminate Ht]. }
  split; [|split; [apply sublist_filter|split; [apply length_filter|]]].
  - intros h. rewrite list_elem_of_filter. split.
    + intros [Hdate Hel]. exists dob, hs. repeat split; try done.
      intros ->. discriminate Ht.
    + intros (d' & hs' & [= <-] & _ & [= <-] & Hel & Hdate). done.
  - cbn [default]. destruct (filter _ hs) as [|x l]; cbn; [|done].
    split; [discriminate|done].
Qed.

End Results.

(** ** Teardown, the error boundary and events that only touch the page *)

Section Lifecycle.

Context {dates : LocalDate}.

(** X13. In every reachable state [disconnectedCallback] cancels the pending
    format check and nothing else: no field changes, the Apex calls in
    flight stay in flight, and whatever timers fire afterwards no call is
    made; but the answer of a format check already in flight is still
    written into the component. *)
Theorem disconnect_cancels_the_debounce (w : World) :
  reachable_by any_event w →
  let w' := step w Disconnected in
  this w' = this w
  ∧ inFlight w' = inFlight w
  ∧ calls w' = calls w
  ∧ no_debounce_pending w'
  ∧ (∀ hs : list nat, calls (run w' (TimerFires <$> hs)) = calls w')
  ∧ (∀ (call : nat) (answer : bool),
       inFlight w !! call = Some (InPerformRealtimeValidation FromDebounce) →
       isValidId
         (this (step w' (ValidateIdFormatSettles call (Resolved answer)))) =
       answer).
Proof.
  intros (_ & Hv & Hown)%debounce_owned_reachable w'.
  assert (Hno : no_debounce_pending w').
  { subst w'. unfold no_debounce_pending. js_world w. js_run. js_cases.
    - intros h t Hl Hc. lookups. specialize (Hown _ _ H0 Hc). congruence.
    - apply truthy_handle_false in Heqb. subst. by destruct (Hv 0).
    - intros h t Hl Hc. by specialize (Hown _ _ Hl Hc). }
  assert (Hsame : this w' = this w ∧ inFlight w' = inFlight w
                  ∧ calls w' = calls w).
  { subst w'. js_world w. js_run. js_cases; done. }
  destruct Hsame as (H1 & H2 & H3).
  repeat (split; [done|]). split.
  - intros hs. by apply quiet_timers.
  - intros call answer Hin. rewrite <- H2 in Hin.
    js_world w'. js_run. rewrite Hin. by destruct answer.
Qed.

(** X14. The error boundary sets [hasError] and its message, clears
    [isSearching] and [isValidating] and dispatches one toast; it leaves
    [isValidId], [hasResults], the text, the timers and the calls in flight
    as they are.  The next input clears the error again. *)
Theorem error_boundary_effect
    (w : World) (error : Error) (stack text : string) :
  let w' := step w (ErrorCaught error stack) in
  hasError (this w') = true
  ∧ errorMessage (this w') =
      "A component error occurred. Please refresh the page."
  ∧ isSearching (this w') = false
  ∧ isValidating (this w') = false
  ∧ isValidId (this w') = isValidId (this w)
  ∧ hasResults (this w') = hasResults (this w)
  ∧ idNumber (this w') = idNumber (this w)
  ∧ timers w' = timers w
  ∧ inFlight w' = inFlight w
  ∧ calls w' = calls w
  ∧ toasts w' = toasts w ++ [componentErrorToast]
  ∧ hasError (this (step w' (InputChange text))) = false
  ∧ errorMessage (this (step w' (InputChange text))) = "".
Proof.
  intros w'. subst w'. js_world w. js_run. repeat (split; [done|]).
  js_cases; done.
Qed.

(** X15. Rendering, connecting, and the scroll and focus timers never
    change a field of the component, start a call or dispatch a toast. *)
Theorem page_events_leave_the_state (w : World) (e : Event) :
  match e with
  | Rendered _ | Connected => True
  | TimerFires h =>
      ∀ t, timers w !! h = Some t → callback t ≠ DebouncedValidation
  | _ => False
  end →
  this (step w e) = this w
  ∧ calls (step w e) = calls w
  ∧ inFlight (step w e) = inFlight w
  ∧ toasts (step w e) = toasts w.
Proof.
  intros He. js_world w. destruct e; try done; js_run.
  1: match type of He with
     | ∀ t, _ !! ?h = Some t → _ =>
         destruct (tms !! h) as [[cb ms]|] eqn:Hh; [|done]
     end.
  1: destruct cb; [by destruct (He _ eq_refl)| |]; by js_prims.
  all: js_cases; done.
Qed.

End Lifecycle.

(** ** What the template reads *)

Section View.

Context {dates : LocalDate}.

(** X16. What the input looks like right after an input event.  Ten
    characters or more: neither icon, the search disabled.  One to nine:
    the invalid icon, the invalid class, the error class of the message,
    the search disabled.  None: no icon, the plain class, no message. *)
Theorem view_after_input (w : World) (text : string) :
  let c := this (step w (InputChange text)) in
  ((10 ≤ String.length text)%nat →
     showValidIcon c = false ∧ showInvalidIcon c = false
     ∧ isSearchDisabled c = true)
  ∧ ((0 < String.length text < 10)%nat →
     showValidIcon c = false ∧ showInvalidIcon c = true
     ∧ inputClass c = "input-field input-invalid"
     ∧ validationMessageClass c = "validation-message validation-error"
     ∧ isSearchDisabled c = true)
  ∧ (text = "" →
     showValidIcon c = false ∧ showInvalidIcon c = false
     ∧ inputClass c = "input-field"
     ∧ validationMessage c = ""
     ∧ isSearchDisabled c = true).
Proof.
  intros c0. subst c0.
  unfold showValidIcon, showInvalidIcon, isSearchDisabled, inputClass,
    validationMessageClass.
  js_world w. split; [|split].
  - intros Hlen.
    assert (Ht : Js.truthy_string text = true)
      by (apply truthy_string_nonempty; lia).
    apply Nat.leb_le in Hlen. js_run.
    destruct (validationTimeout c) as [h|];
      [destruct (Js.truthy_handle h)|];
      js_prims; rewrite Ht, Hlen; js_cases; done.
  - intros [Hpos Hlen].
    assert (Hge : (10 <=? String.length text)%nat = false)
      by (apply Nat.leb_gt; lia).
    assert (H13 : (String.length text <? 13)%nat = true)
      by (apply Nat.ltb_lt; lia).
    apply Nat.ltb_lt in Hpos. js_run.
    destruct (validationTimeout c) as [h|];
      [destruct (Js.truthy_handle h)|];
      js_prims; rewrite Hge, Hpos, H13; destruct (Js.truthy_string text);
      js_prims; rewrite ?Hpos; js_cases; done.
  - intros ->. js_run.
    destruct (validationTimeout c) as [h|];
      [destruct (Js.truthy_handle h)|]; js_cases; done.
Qed.

(** X17. The two icons are never shown together and neither is shown while
    a format check is in flight; with a text and no check in flight exactly
    one is shown.  The invalid class goes with the invalid icon, while the
    valid class and the success class of the message follow [isValidId]
    alone, also during a check.  An enabled search shows the valid icon. *)
Theorem icons_and_classes (c : Component) :
  showValidIcon c && showInvalidIcon c = false
  ∧ (isValidating c = true →
     showValidIcon c = false ∧ showInvalidIcon c = false)
  ∧ (isValidating c = false → idNumber c ≠ "" →
     xorb (showValidIcon c) (showInvalidIcon c) = true)
  ∧ (showInvalidIcon c = true ↔ inputClass c = "input-field input-invalid")
  ∧ (isValidId c = true ↔ inputClass c = "input-field input-valid")
  ∧ (isValidId c = true ↔
     validationMessageClass c = "validation-message validation-success")
  ∧ (isSearchDisabled c = false → showValidIcon c = true).
Proof.
  unfold showValidIcon, showInvalidIcon, inputClass, validationMessageClass,
    isSearchDisabled.
  assert (Hlen : idNumber c ≠ "" → (0 <? String.length (idNumber c))%nat = true).
  { intros Hne. apply Nat.ltb_lt. destruct (idNumber c) as [|a s]; [done|].
    change (0 < S (String.length s))%nat. lia. }
  destruct (isValidId c), (isValidating c), (isSearching c),
    (0 <? String.length (idNumber c))%nat eqn:Hl;
    repeat split; intros; try done; try (by apply Hlen); try discriminate;
    try (rewrite Hlen in Hl by done; discriminate).
Qed.

(** X18. The citizenship text and badge agree, and say SA citizen only for
    [isSACitizen] true, not when it is false or missing.  The gender badge
    is the male or the female one only for exactly ['Male'] or ['Female'],
    and the neutral one otherwise. *)
Theorem badges_follow_details (c : Component) :
  (citizenshipText c = "SA Citizen" ↔
   IdDetails.isSACitizen (idDetails c) = Some true)
  ∧ (citizenshipBadgeClass c = "citizenship-badge citizenship-sa" ↔
     IdDetails.isSACitizen (idDetails c) = Some true)
  ∧ (genderBadgeClass c = "gender-badge gender-male" ↔
     IdDetails.gender (idDetails c) = Some "Male")
  ∧ (genderBadgeClass c = "gender-badge gender-female" ↔
     IdDetails.gender (idDetails c) = Some "Female")
  ∧ (genderBadgeClass c = "gender-badge" ↔
     IdDetails.gender (idDetails c) ≠ Some "Male"
     ∧ IdDetails.gender (idDetails c) ≠ Some "Female").
Proof.
  unfold citizenshipText, citizenshipBadgeClass, genderBadgeClass.
  destruct (IdDetails.isSACitizen (idDetails c)) as [[]|]; cbn;
    repeat case_bool_decide; simplify_eq;
    repeat split; intros; simplify_eq; try done; try discriminate;
    by destruct_and?.
Qed.

(** X19. [formatDate] throws nothing: it returns the empty text for a
    missing or empty argument, the formatter's text when it returns one,
    and the argument itself when the formatter throws. *)
Theorem formatDate_never_throws
    (toLocaleDateString : string → Outcome string)
    (dateString : option string) (w : World) :
  ∃ text : string,
    formatDate toLocaleDateString dateString w = (Normal text, w)
    ∧ (Js.truthy_opt Js.truthy_string dateString = false → text = "")
    ∧ (∀ d, dateString = Some d → Js.truthy_string d = true →
            match toLocaleDateString d with
            | Resolved formatted => text = formatted
            | Rejected _ => text = d
            end).
Proof.
  unfold formatDate. destruct dateString as [d|]; cbn.
  - destruct (Js.truthy_string d) eqn:Ht.
    + destruct (toLocaleDateString d) as [v|e] eqn:Hf; js_prims;
        (eexists; split; [done|]); (split; [done|]);
        intros d' [= <-] _; by rewrite Hf.
    + js_prims. eexists. split; [done|]. split; [done|].
      intros d' [= <-]. congruence.
  - js_prims. eexists. split; [done|]. split; [done|]. done.
Qed.

End View.

(** ** The text dates are compared as *)

Lemma string_length_append (s t : string) :
  String.length (s +:+ t) = String.length s + String.length t.
Proof.
  induction s as [|a s IH]; [done|].
  change (S (String.length (s +:+ t)) = S (String.length s) + String.length t).
  by rewrite IH.
Qed.

Lemma two_digits_exact (k : nat) :
  (k < 100)%nat →
  Js.padStart 2 "0"%char (Js.number_toString (Some k)) = two_digit_text k.
Proof.
  intros Hk.
  assert (H : forallb
                (λ k, String.eqb
                        (Js.padStart 2 "0"%char (Js.number_toString (Some k)))
                        (two_digit_text k))
                (seq 0 100) = true) by (vm_compute; reflexivity).
  rewrite forallb_forall in H. apply String.eqb_eq, H, in_seq. lia.
Qed.

Lemma four_digits_exact (y : Z) :
  (1000 ≤ y ≤ 9999)%Z →
  Js.integer_toString y = four_digit_text (Z.to_nat y).
Proof.
  intros Hy.
  assert (H : forallb
                (λ k, (k <? 1000)%nat
                      || String.eqb (Js.integer_toString (Z.of_nat k))
                           (four_digit_text k))
                (seq 0 (Z.to_nat 10000)) = true) by (vm_compute; reflexivity).
  rewrite forallb_forall in H.
  specialize (H (Z.to_nat y)). rewrite in_seq in H.
  rewrite Z2Nat.id in H by lia.
  destruct (Z.to_nat y <? 1000)%nat eqn:Hlt;
    [apply Nat.ltb_lt in Hlt; lia|].
  apply String.eqb_eq, H. lia.
Qed.

Section DateText.

Context {dates : LocalDate}.

(** X20. Holidays are matched by text.  For a date of birth the browser can
    read, the text is the birth year, a dash, the month (counted from 1) in
    exactly two decimal digits, a dash and the day in exactly two decimal
    digits; with a birth year of four digits that is the ISO text
    [YYYY-MM-DD] of the birth year and the month and day of the date of
    birth.  For a date of birth the browser cannot read the text is the
    year followed by [-NaN-NaN]. *)
Theorem birth_date_text (d : IdDetails.t) (dateOfBirth : string) :
  let year :=
    match IdDetails.birthYear d with
    | Some y => Js.integer_toString y
    | None => "undefined"
    end in
  (∀ m day,
     Date_getMonth dateOfBirth = Some m → (m ≤ 11)%nat →
     Date_getDate dateOfBirth = Some day → (day ≤ 31)%nat →
     birthDateString d dateOfBirth =
       year +:+ "-" +:+ two_digit_text (m + 1) +:+ "-" +:+ two_digit_text day
     ∧ String.length (birthDateString d dateOfBirth) = String.length year + 6
     ∧ (∀ y, IdDetails.birthYear d = Some y → (1000 ≤ y ≤ 9999)%Z →
             birthDateString d dateOfBirth =
             iso_date_text (Z.to_nat y) (m + 1) day))
  ∧ (Date_getMonth dateOfBirth = None → Date_getDate dateOfBirth = None →
     birthDateString d dateOfBirth = year +:+ "-NaN-NaN").
Proof.
  intros year. unfold birthDateString. fold year. split.
  - intros m day Hm Hmr Hd Hdr. rewrite Hm, Hd.
    cbn [fmap option_fmap option_map].
    rewrite !two_digits_exact by lia. split; [done|]. split.
    + rewrite !string_length_append.
      change (String.length "-") with 1%nat.
      change (String.length (two_digit_text (m + 1))) with 2%nat.
      change (String.length (two_digit_text day)) with 2%nat. lia.
    + intros y Hy Hr. subst year. rewrite Hy.
      by rewrite four_digits_exact.
  - intros -> ->. done.
Qed.

End DateText.

(** ** The scenario, run in the browser of [IsoDate] *)

Section Examples.

#[local] Existing Instance IsoDate.local.

Import Scenario.

Lemma not_searching_decide (w : World) :
  bool_decide (map_Forall (λ _ k, k ≠ InHandleSearch) (inFlight w)) = true →
  ¬ searching w.
Proof.
  intros H%bool_decide_eq_true [id Hid]. by apply (H id _ Hid).
Qed.

(** The states of the scenario are reached without [reset()] and without
    the error boundary. *)
Lemma found_reachable (ok : World → Event → Prop) :
  (∀ w e, undisturbed w e → e ≠ Reset →
          (∀ error stack, e ≠ ErrorCaught error stack) → ok w e) →
  reachable_by ok typed ∧ reachable_by ok debounced ∧ reachable_by ok valid
  ∧ reachable_by ok searchingA ∧ reachable_by ok found.
Proof.
  intros Hok.
  assert (H1 : reachable_by ok typed)
    by (apply reachable_step; [constructor|by apply Hok]).
  assert (H2 : reachable_by ok debounced)
    by (apply reachable_step; [done|by apply Hok]).
  assert (H3 : reachable_by ok valid)
    by (apply reachable_step; [done|by apply Hok]).
  assert (H4 : reachable_by ok searchingA)
    by (apply reachable_step; [done|by apply Hok]).
  assert (H5 : reachable_by ok found)
    by (apply reachable_step; [done|by apply Hok]).
  done.
Qed.

(** C7, at the scenario: the debounced check of [idA] resolves true. *)
Lemma validation_settles_witness :
  inFlight debounced !! 0 = Some (InPerformRealtimeValidation FromDebounce)
  ∧ (handle (ValidateIdFormatSettles 0 (Resolved true)) debounced).1 =
      Normal tt
  ∧ isValidating (this valid) = false
  ∧ isValidId (this valid) = true
  ∧ validationMessage (this valid) = "Valid SA ID Number ✓".
Proof.
  split; [vm_compute; reflexivity|].
  pose proof (validation_settles debounced 0 FromDebounce (Resolved true))
    as H.
  destruct H as (Hn & _ & Hv & Hi & Hm); [vm_compute; reflexivity|].
  exact (conj Hn (conj Hv (conj Hi Hm))).
Defined.

(** C2, at the scenario: the search of [idA] is rejected, or resolves
    invalid, or resolves valid. *)
Lemma search_settles_witness :
  let w' := step searchingA (ValidateAndSearchSettles 1 (Rejected offline)) in
  inFlight searchingA !! 1 = Some InHandleSearch
  ∧ isSearching (this searchingA) = true
  ∧ isSearching
      (this (step searchingA
               (ValidateAndSearchSettles 1 (Resolved rejectedResult)))) =
    false
  ∧ isSearching (this found) = false
  ∧ isSearching (this w') = false
  ∧ hasError (this w') = true
  ∧ errorMessage (this w') =
      "An unexpected error occurred. Please try again."
  ∧ toasts w' = toasts searchingA ++ [searchFailedToast].
Proof.
  intros w'.
  assert (Hin : inFlight searchingA !! 1 = Some InHandleSearch)
    by (vm_compute; reflexivity).
  split; [exact Hin|]. split; [vm_compute; reflexivity|].
  destruct (search_settles searchingA 1 (Resolved rejectedResult) Hin)
    as [Hinvalid _].
  destruct (search_settles searchingA 1 (Resolved resultA) Hin)
    as [Hvalid _].
  destruct (search_settles searchingA 1 (Rejected offline) Hin) as [Hs Hr].
  exact (conj Hinvalid (conj Hvalid (conj Hs (Hr offline eq_refl)))).
Defined.

(** C6, at the scenario: the holidays of 1980 cannot be retrieved. *)
Lemma holiday_failure_witness :
  (let w' := step found (GetHolidaysForYearSettles 2 (Rejected offline)) in
   inFlight found !! 2 = Some InHandleRetryHolidays
   ∧ hasResults (this found) = true
   ∧ hasError (this found) = false
   ∧ this w' = this found
   ∧ calls w' = calls found
   ∧ toasts w' = toasts found ++ [holidaysFailedToast])
  ∧ (let w1 :=
       run valid
         [SearchClick;
          ValidateAndSearchSettles (nextCall valid) (Resolved resultA)] in
     let w2 :=
       step w1
         (GetHolidaysForYearSettles (S (nextCall valid)) (Rejected offline)) in
     calls w1 =
       calls valid ++ [validateAndSearch (idNumber (this valid));
                       getHolidaysForYear 1980]
     ∧ hasResults (this w1) = true
     ∧ this w2 = this w1
     ∧ hasResults (this w2) = true
     ∧ hasError (this w2) = false
     ∧ errorMessage (this w2) = ""
     ∧ holidaysOnBirthDate (this w2) = holidaysOnBirthDate (this valid)
     ∧ toasts w2 = toasts valid ++ [holidaysFailedToast]).
Proof.
  destruct holiday_failure_keeps_search_state as [Hframe Hrun].
  split.
  - intros w'.
    split; [vm_compute; reflexivity|]. split; [vm_compute; reflexivity|].
    split; [vm_compute; reflexivity|].
    apply (Hframe found 2 offline). vm_compute; reflexivity.
  - apply (Hrun valid resultA detailsA 1980%Z offline);
      first [vm_compute; reflexivity | discriminate].
Defined.

(** C4, counterexample: ten characters are typed and no message about the
    length is shown. *)
Lemma ten_characters_show_no_length_message :
  let w := step created (InputChange "8001014800") in
  String.length "8001014800" = 10
  ∧ validationMessage (this w) = ""
  ∧ validationMessage (this w) ≠ "ID number must be 13 digits long"
  ∧ isValidating (this w) = true.
Proof. vm_compute. repeat split; discriminate. Qed.

(** C4, at a fresh component: ten characters, then five. *)
Lemma input_length_threshold_witness :
  let w := step created (InputChange "8001014800") in
  let v := step created (InputChange "80010") in
  (validationMessage (this w) = ""
   ∧ isValidating (this w) = true
   ∧ validationTimeout (this w) = Some (nextTimer created)
   ∧ timers w !! nextTimer created =
       Some {| callback := DebouncedValidation; delay := 500 |}
   ∧ calls w = calls created)
  ∧ (validationMessage (this v) = "ID number must be 13 digits long"
     ∧ isValidating (this v) = false
     ∧ isValidId (this v) = false
     ∧ nextTimer v = nextTimer created
     ∧ timers v ⊆ timers created
     ∧ calls v = calls created).
Proof.
  intros w v.
  destruct (input_length_threshold created "8001014800") as [Hlong _].
  destruct (input_length_threshold created "80010") as [_ Hshort].
  split; [apply Hlong|apply Hshort]; vm_compute; lia.
Defined.

(** C9, at the scenario: reset while the debounce timer is pending. *)
Lemma reset_witness :
  let w' := step typed Reset in
  reachable_by any_event typed
  ∧ timers typed !! 1 =
      Some {| callback := DebouncedValidation; delay := 500 |}
  ∧ timers w' !! 1 = None
  ∧ this w' = set_validationTimeout (validationTimeout (this typed)) initial
  ∧ no_debounce_pending w'
  ∧ (∀ hs : list nat,
       calls (run w' (TimerFires <$> hs)) = calls w'
       ∧ this (run w' (TimerFires <$> hs)) = this w').
Proof.
  intros w'.
  assert (Hw : reachable_by any_event typed)
    by (apply reachable_step; [constructor|exact I]).
  split; [exact Hw|]. split; [vm_compute; reflexivity|].
  split; [vm_compute; reflexivity|].
  exact (reset_restores_initial_state typed Hw).
Defined.

(** C3, counterexample: [reset()] during a search clears the flag, and
    after the identifier is validated again [handleSearch] makes a second
    call while the first is still in flight. *)
Lemma second_call_while_first_in_flight :
  let w :=
    run searchingA
      [Reset; InputChange idA; TimerFires 2;
       ValidateIdFormatSettles 2 (Resolved true)] in
  let w' := step w SearchClick in
  reachable_by any_event w
  ∧ inFlight w !! 1 = Some InHandleSearch
  ∧ isSearching (this w) = false
  ∧ inFlight w' !! 1 = Some InHandleSearch
  ∧ inFlight w' !! 3 = Some InHandleSearch
  ∧ calls w' =
      [validateIdFormat idA; validateAndSearch idA;
       validateIdFormat idA; validateAndSearch idA].
Proof.
  split; [|vm_compute; repeat split].
  apply reachable_by_run; [|vm_compute; repeat split].
  by apply found_reachable.
Qed.

(** C3, at the scenario: a click before the identifier is valid, the click
    that starts the search, and a second click while it is in flight. *)
Lemma search_guard_witness :
  handle SearchClick created = (Normal tt, created)
  ∧ (let w1 := step valid SearchClick in
     calls w1 = calls valid ++ [validateAndSearch (idNumber (this valid))]
     ∧ inFlight w1 !! nextCall valid = Some InHandleSearch
     ∧ handle SearchClick w1 = (Normal tt, w1))
  ∧ (reachable_by undisturbed searchingA
     ∧ searching searchingA
     ∧ handle SearchClick searchingA = (Normal tt, searchingA))
  ∧ (reachable_by undisturbed valid
     ∧ ¬ searching valid
     ∧ calls (step valid SearchClick) =
         calls valid ++ [validateAndSearch (idNumber (this valid))]).
Proof.
  destruct search_guard_on_flag as (Hnoop & Hcall & Hflight & Hidle).
  assert (Hs : reachable_by undisturbed searchingA)
    by (by apply found_reachable).
  assert (Hv : reachable_by undisturbed valid)
    by (by apply found_reachable).
  assert (Hin : searching searchingA)
    by (exists 1; vm_compute; reflexivity).
  assert (Hout : ¬ searching valid)
    by (apply not_searching_decide; vm_compute; reflexivity).
  split; [apply Hnoop; left; vm_compute; reflexivity|].
  split; [apply Hcall; vm_compute; reflexivity|].
  split; [exact (conj Hs (conj Hin (Hflight searchingA Hs Hin)))|].
  refine (conj Hv (conj Hout (Hidle valid Hv _ Hout))).
  vm_compute; reflexivity.
Defined.

(** C1, counterexample: the error boundary after a successful search
    leaves both flags set. *)
Lemma error_boundary_after_results_sets_both :
  let w := step found (ErrorCaught offline "stack") in
  reachable_by any_event w
  ∧ hasResults (this w) = true ∧ hasError (this w) = true.
Proof.
  split; [|vm_compute; repeat split].
  apply reachable_step; [by apply found_reachable|exact I].
Qed.

(** C1, at the scenario: up to the click no search has completed; then the
    search of [idA] completes, [reset()] runs, then the error boundary. *)
Lemma result_flags_witness :
  let w := run found [Reset; ErrorCaught offline "stack"] in
  (reachable_by no_completion searchingA
   ∧ hasResults (this searchingA) = false
   ∧ hasError (this searchingA) = false)
  ∧ (exclusive found ∧ exclusive (step found Reset))
  ∧ (reachable_by allowed w ∧ exclusive w).
Proof.
  intros w.
  destruct result_flags_exclusive as (_ & Hbefore & Hother & Hex).
  assert (Hs : reachable_by no_completion searchingA)
    by (repeat (apply reachable_step; [|exact I]); constructor).
  assert (Hf : reachable_by allowed found).
  { apply found_reachable. intros w0 e He Hr Hc.
    destruct e; try exact I; [by destruct Hr|by destruct (Hc error stack)]. }
  assert (Hw : reachable_by allowed w).
  { apply reachable_by_run; [done|].
    cbn [all_ok allowed].
    repeat split;
      try (apply not_searching_decide; vm_compute; reflexivity). }
  split; [exact (conj Hs (Hbefore searchingA Hs))|].
  split; [exact (conj (Hex found Hf) (Hother found Reset I (Hex found Hf)))|].
  exact (conj Hw (Hex w Hw)).
Defined.

(** C5, counterexample: the search of [idA] resolves with the holidays of
    1980 and the dependent retrieval fails; the stored cross-reference is
    empty although New Year's Day is among the stored holidays. *)
Lemma cross_reference_stale_after_search :
  let w := step found (GetHolidaysForYearSettles 2 (Rejected offline)) in
  reachable_by any_event w
  ∧ idDetails (this w) = detailsA
  ∧ holidayResponse (this w) = holidays1980
  ∧ holidaysOnBirthDate (this w) = []
  ∧ crossReference (idDetails (this w)) (holidayResponse (this w)) =
      [newYear].
Proof.
  split; [|vm_compute; repeat split].
  apply reachable_step; [by apply found_reachable|exact I].
Qed.

(** C5, at the scenario: the dependent retrieval resolves, and a later
    input leaves the cross-reference as it is. *)
Lemma cross_reference_witness :
  let w' :=
    step found (GetHolidaysForYearSettles 2 (Resolved holidays1980)) in
  inFlight found !! 2 = Some InHandleRetryHolidays
  ∧ holidaysOnBirthDate (this w') = [newYear]
  ∧ consistent w'
  ∧ consistent (step w' (InputChange idB))
  ∧ consistent (step found Reset).
Proof.
  intros w'.
  destruct cross_reference_recomputed as (_ & Hreset & Hrec & Hkeep).
  assert (Hin : inFlight found !! 2 = Some InHandleRetryHolidays)
    by (vm_compute; reflexivity).
  split; [exact Hin|]. split; [vm_compute; reflexivity|].
  split; [exact (Hrec found 2 holidays1980 Hin)|].
  split; [|exact (Hreset found)].
  exact (Hkeep w' (InputChange idB) eq_refl (Hrec found 2 holidays1980 Hin)).
Defined.

(** C10, at the scenario: [idA] is typed, [searchWithId(idB)] is called
    before the debounce fires, and the debounce then checks [idB] again;
    typing [idB] instead cancels the timer. *)
Lemma searchWithId_witness :
  let w' := step typed (SearchWithId idB) in
  timers typed !! 1 =
    Some {| callback := DebouncedValidation; delay := 500 |}
  ∧ timers w' = timers typed
  ∧ calls w' = calls typed ++ [validateIdFormat idB]
  ∧ calls (step w' (TimerFires 1)) = calls w' ++ [validateIdFormat idB]
  ∧ timers (step typed (InputChange idB)) !! 1 = None.
Proof.
  intros w'.
  destruct (searchWithId_keeps_messages_and_timer typed idB)
    as (_ & Hc & _ & _ & _ & _ & _ & Ht & Hfire & Hinput).
  destruct (Hinput idB) as (_ & _ & Hcancel).
  assert (H1 : timers typed !! 1 =
               Some {| callback := DebouncedValidation; delay := 500 |})
    by (vm_compute; reflexivity).
  refine (conj H1 (conj Ht (conj Hc (conj (Hfire 1 _ H1 eq_refl) _)))).
  apply Hcancel; [vm_compute; reflexivity|discriminate|vm_compute; lia].
Defined.

(** X21, at the scenario: a formatter that throws, with and without a
    date of birth. *)
Lemma formattedDateOfBirth_witness :
  (∃ text : string,
     formattedDateOfBirth (λ _, Rejected (JsError "RangeError")) found =
       (Normal text, found)
     ∧ text =
         Js.or_else Js.truthy_string
           (IdDetails.formattedDateOfBirth (idDetails (this found))) "")
  ∧ (∃ text : string,
       formattedDateOfBirth (λ _, Rejected (JsError "RangeError")) created =
         (Normal text, created)
       ∧ text = "").
Proof.
  split.
  - destruct (formattedDateOfBirth_never_throws
                (λ _, Rejected (JsError "RangeError")) found)
      as (text & Heq & _ & Hcase).
    exists text. split; [exact Heq|].
    apply (Hcase "1980-01-01"); vm_compute; reflexivity.
  - destruct (formattedDateOfBirth_never_throws
                (λ _, Rejected (JsError "RangeError")) created)
      as (text & Heq & Hempty & _).
    exists text. split; [exact Heq|]. apply Hempty. vm_compute; reflexivity.
Defined.

(** X2, at the scenario: the timer with handle 1 is the pending format
    check. *)
Lemma one_debounce_timer_witness :
  reachable_by any_event typed
  ∧ timers typed !! 1 =
      Some {| callback := DebouncedValidation; delay := 500 |}
  ∧ 1 = 1.
Proof.
  assert (Hw : reachable_by any_event typed) by (by apply found_reachable).
  assert (H1 : timers typed !! 1 =
               Some {| callback := DebouncedValidation; delay := 500 |})
    by (vm_compute; reflexivity).
  exact (conj Hw (conj H1
           (one_debounce_timer_pending typed 1 1 _ _ Hw H1 eq_refl H1
              eq_refl))).
Defined.

(** X3, at the scenario: [idA] is replaced by five characters. *)
Lemma short_input_witness :
  let w' := step typed (InputChange "80010") in
  reachable_by any_event typed
  ∧ (String.length "80010" < 10)%nat
  ∧ isValidating (this w') = false
  ∧ isValidId (this w') = false
  ∧ calls w' = calls typed
  ∧ no_debounce_pending w'.
Proof.
  intros w'.
  assert (Hw : reachable_by any_event typed) by (by apply found_reachable).
  assert (Hlen : (String.length "80010" < 10)%nat) by (vm_compute; lia).
  exact (conj Hw (conj Hlen
           (short_input_schedules_nothing typed "80010" Hw Hlen))).
Defined.

(** X4, at a fresh component: five characters are typed, then [idA]. *)
Lemma debounce_last_text_witness :
  let w' := run created [InputChange "80010"; InputChange idA] in
  ∃ h,
    timers w' !! h = Some {| callback := DebouncedValidation; delay := 500 |}
    ∧ (∀ h' t', timers w' !! h' = Some t' →
                callback t' = DebouncedValidation → h' = h)
    ∧ calls w' = calls created
    ∧ calls (step w' (TimerFires h)) =
        calls created ++ [validateIdFormat idA].
Proof.
  apply (debounce_uses_the_last_text created "80010" idA).
  - constructor.
  - vm_compute; lia.
Defined.

End Examples.

(** ** The further properties at the scenario *)

Section MoreExamples.

#[local] Existing Instance IsoDate.local.

Import Scenario.

(** X6, at the scenario: [idB] is typed over the valid [idA]. *)
Lemma long_input_witness :
  let w1 := step valid (InputChange idB) in
  (10 ≤ String.length idB)%nat
  ∧ isValidId (this valid) = true
  ∧ isSearching (this valid) = false
  ∧ isValidId (this w1) = isValidId (this valid)
  ∧ isValidating (this w1) = true
  ∧ step w1 (KeyDown "Enter") = w1
  ∧ calls (step w1 SearchClick) = calls valid ++ [validateAndSearch idB].
Proof.
  intros w1.
  assert (Hlen : (10 ≤ String.length idB)%nat) by (vm_compute; lia).
  assert (Hv : isValidId (this valid) = true) by (vm_compute; reflexivity).
  assert (Hs : isSearching (this valid) = false)
    by (vm_compute; reflexivity).
  destruct (long_input_keeps_validity valid idB Hlen) as (H1 & H2 & H3 & H4).
  exact (conj Hlen (conj Hv (conj Hs (conj H1 (conj H2 (conj H3
           (H4 Hv Hs))))))).
Defined.

(** X7, at the scenario: [idB] is typed while the check of [idA] is in
    flight, and that check then answers true. *)
Lemma late_validation_answer_witness :
  let w' :=
    run debounced
      [InputChange idB; ValidateIdFormatSettles 0 (Resolved true)] in
  inFlight debounced !! 0 = Some (InPerformRealtimeValidation FromDebounce)
  ∧ idNumber (this w') = idB
  ∧ isValidId (this w') = true
  ∧ isValidating (this w') = false
  ∧ timers w' !! nextTimer debounced =
      Some {| callback := DebouncedValidation; delay := 500 |}
  ∧ calls w' = calls debounced.
Proof.
  intros w'.
  assert (Hin : inFlight debounced !! 0 =
                Some (InPerformRealtimeValidation FromDebounce))
    by (vm_compute; reflexivity).
  refine (conj Hin
            (late_validation_answer_marks_new_text debounced 0 idB true
               Hin _)).
  vm_compute; lia.
Defined.

(** X8, at the scenario: [reset()] during the search of [idA]. *)
Lemma late_search_result_witness :
  let w' :=
    run searchingA [Reset; ValidateAndSearchSettles 1 (Resolved resultA)] in
  inFlight searchingA !! 1 = Some InHandleSearch
  ∧ hasResults (this w') = true
  ∧ hasError (this w') = false
  ∧ idNumber (this w') = ""
  ∧ isValidId (this w') = false
  ∧ idDetails (this w') =
      Js.or_else (λ _, true) (Result.idDetails resultA) IdDetails.empty
  ∧ holidayResponse (this w') =
      Js.or_else (λ _, true) (Result.holidayResponse resultA)
        emptyHolidayResponse.
Proof.
  intros w'.
  assert (Hin : inFlight searchingA !! 1 = Some InHandleSearch)
    by (vm_compute; reflexivity).
  exact (conj Hin
           (late_search_result_survives_reset searchingA 1 resultA Hin
              eq_refl)).
Defined.

(** X9, at the scenario: the search of [idA] resolves with [resultA]. *)
Lemma valid_result_witness :
  inFlight searchingA !! 1 = Some InHandleSearch
  ∧ getCurrentResults (this found) =
      (detailsA, holidays1980, 1%Z, true, true)
  ∧ calls found = calls searchingA ++ [getHolidaysForYear 1980]
  ∧ toasts found = toasts searchingA.
Proof.
  assert (Hin : inFlight searchingA !! 1 = Some InHandleSearch)
    by (vm_compute; reflexivity).
  destruct (valid_result_is_committed searchingA 1 resultA Hin eq_refl)
    as (Hget & _ & _ & _ & _ & Ht & _ & Hc).
  exact (conj Hin (conj Hget (conj Hc Ht))).
Defined.

(** X10, at the scenario: the search of [idA] resolves invalid. *)
Lemma invalid_result_witness :
  let w' :=
    step searchingA (ValidateAndSearchSettles 1 (Resolved rejectedResult)) in
  inFlight searchingA !! 1 = Some InHandleSearch
  ∧ hasError (this w') = true
  ∧ errorMessage (this w') =
      Js.or_else Js.truthy_string (Result.errorMessage rejectedResult)
        "Invalid SA ID Number"
  ∧ toasts w' = toasts searchingA
  ∧ calls w' = calls searchingA.
Proof.
  intros w'.
  assert (Hin : inFlight searchingA !! 1 = Some InHandleSearch)
    by (vm_compute; reflexivity).
  destruct (invalid_result_sets_server_message searchingA 1 rejectedResult
              Hin eq_refl)
    as (He & Hm & _ & _ & _ & _ & _ & _ & Ht & Hc & _).
  exact (conj Hin (conj He (conj Hm (conj Ht Hc)))).
Defined.

(** X11, at the scenario: a retry before any search, and two retries after
    the search of [idA] whose answers arrive in reverse order. *)
Lemma retry_witness :
  step created RetryClick = created
  ∧ (let w2 := run found [RetryClick; RetryClick] in
     let w' :=
       run w2
         [GetHolidaysForYearSettles (S (nextCall found))
            (Resolved emptyHolidayResponse);
          GetHolidaysForYearSettles (nextCall found)
            (Resolved holidays1980)] in
     calls w2 =
       calls found ++ [getHolidaysForYear 1980; getHolidaysForYear 1980]
     ∧ this w2 = this found
     ∧ holidayResponse (this w') = holidays1980
     ∧ consistent w').
Proof.
  destruct retry_is_not_guarded as [Hnone Htwice].
  split.
  - apply Hnone. vm_compute; reflexivity.
  - apply (Htwice found 1980%Z holidays1980 emptyHolidayResponse);
      [vm_compute; reflexivity|discriminate].
Defined.

(** X12, at the scenario: the holidays of 1980 arrive. *)
Lemma retrieval_witness :
  let w' :=
    step found (GetHolidaysForYearSettles 2 (Resolved holidays1980)) in
  inFlight found !! 2 = Some InHandleRetryHolidays
  ∧ holidaysOnBirthDate (this w') = [newYear]
  ∧ holidayResponse (this w') = holidays1980
  ∧ toasts w' =
      toasts found ++
      (if Js.truthy_opt id (success holidays1980)
       then [holidaysRetrievedToast] else [])
  ∧ (length (holidaysOnBirthDate (this w')) ≤ holidayCount (this w'))%nat.
Proof.
  intros w'.
  assert (Hin : inFlight found !! 2 = Some InHandleRetryHolidays)
    by (vm_compute; reflexivity).
  destruct (retrieval_selects_birth_date found 2 holidays1980 Hin)
    as (Hr & _ & _ & _ & _ & _ & Ht & _ & _ & Hn & _).
  split; [exact Hin|]. split; [vm_compute; reflexivity|].
  exact (conj Hr (conj Ht Hn)).
Defined.

(** X13, at the scenario: the component is removed while the debounce
    timer is pending. *)
Lemma disconnect_witness :
  let w' := step typed Disconnected in
  reachable_by any_event typed
  ∧ timers typed !! 1 =
      Some {| callback := DebouncedValidation; delay := 500 |}
  ∧ timers w' !! 1 = None
  ∧ this w' = this typed
  ∧ no_debounce_pending w'.
Proof.
  intros w'.
  assert (Hw : reachable_by any_event typed)
    by (apply reachable_step; [constructor|exact I]).
  destruct (disconnect_cancels_the_debounce typed Hw)
    as (Hthis & _ & _ & Hno & _).
  split; [exact Hw|]. split; [vm_compute; reflexivity|].
  split; [vm_compute; reflexivity|]. exact (conj Hthis Hno).
Defined.

(** X15, at the scenario: the scroll timer fires after the search. *)
Lemma page_events_witness :
  timers found !! 2 = Some {| callback := ScrollToResults; delay := 300 |}
  ∧ this (step found (TimerFires 2)) = this found
  ∧ calls (step found (TimerFires 2)) = calls found
  ∧ inFlight (step found (TimerFires 2)) = inFlight found
  ∧ toasts (step found (TimerFires 2)) = toasts found.
Proof.
  assert (Ht : timers found !! 2 =
               Some {| callback := ScrollToResults; delay := 300 |})
    by (vm_compute; reflexivity).
  split; [exact Ht|].
  apply (page_events_leave_the_state found (TimerFires 2)).
  intros t Hl. rewrite Ht in Hl. injection Hl as <-. discriminate.
Defined.

(** X16, at a fresh component: ten characters, five, none. *)
Lemma view_after_input_witness :
  (showValidIcon (this (step created (InputChange "8001014800"))) = false
   ∧ showInvalidIcon (this (step created (InputChange "8001014800"))) = false
   ∧ isSearchDisabled (this (step created (InputChange "8001014800"))) = true)
  ∧ (showValidIcon (this (step created (InputChange "80010"))) = false
     ∧ showInvalidIcon (this (step created (InputChange "80010"))) = true
     ∧ inputClass (this (step created (InputChange "80010"))) =
         "input-field input-invalid"
     ∧ validationMessageClass (this (step created (InputChange "80010"))) =
         "validation-message validation-error"
     ∧ isSearchDisabled (this (step created (InputChange "80010"))) = true).
Proof.
  destruct (view_after_input created "8001014800") as (Hlong & _ & _).
  destruct (view_after_input created "80010") as (_ & Hshort & _).
  split; [apply Hlong|apply Hshort]; vm_compute; lia.
Defined.

(** X17, at the scenario: the typed, not yet checked [idA]. *)
Lemma icons_witness :
  isValidating (this typed) = true
  ∧ showValidIcon (this typed) = false
  ∧ showInvalidIcon (this typed) = false.
Proof.
  assert (Hv : isValidating (this typed) = true) by (vm_compute; reflexivity).
  destruct (icons_and_classes (this typed)) as (_ & Hnone & _).
  exact (conj Hv (Hnone Hv)).
Defined.

(** X19, with a formatter that throws. *)
Lemma formatDate_witness :
  ∃ text : string,
    formatDate (λ _, Rejected (JsError "RangeError")) (Some "1980-01-01")
      created = (Normal text, created)
    ∧ text = "1980-01-01".
Proof.
  destruct (formatDate_never_throws (λ _, Rejected (JsError "RangeError"))
              (Some "1980-01-01") created) as (text & Heq & _ & Hcase).
  exists text. split; [exact Heq|].
  apply (Hcase "1980-01-01"); reflexivity.
Defined.

(** X20, at the scenario: 25 December 1992, 1 January 1980, and a text
    that is no date. *)
Lemma birth_date_text_witness :
  birthDateString details1992 "1992-12-25" = "1992-12-25"
  ∧ birthDateString detailsA "1980-01-01" = "1980-01-01"
  ∧ birthDateString detailsA "soon" = "1980-NaN-NaN".
Proof.
  destruct (birth_date_text details1992 "1992-12-25") as [H1992 _].
  destruct (birth_date_text detailsA "1980-01-01") as [H1980 _].
  destruct (birth_date_text detailsA "soon") as [_ Hnot].
  destruct (H1992 11 25) as (_ & _ & Hiso92);
    [vm_compute; reflexivity|lia|vm_compute; reflexivity|lia|].
  destruct (H1980 0 1) as (_ & _ & Hiso80);
    [vm_compute; reflexivity|lia|vm_compute; reflexivity|lia|].
  split; [exact (Hiso92 1992%Z eq_refl ltac:(lia))|].
  split; [exact (Hiso80 1980%Z eq_refl ltac:(lia))|].
  apply Hnot; vm_compute; reflexivity.
Defined.
(** C8, at the scenario: the date of birth is ["soon"] and the server sent
    ["1 January 1980"] as its formatted text. *)
Lemma formattedDateOfBirth_unreadable_witness :
  IdDetails.dateOfBirth (idDetails (this foundUnreadable)) = Some "soon"
  ∧ IdDetails.formattedDateOfBirth (idDetails (this foundUnreadable)) =
      Some "1 January 1980"
  ∧ formattedDateOfBirth (Date_toLocaleDateString (λ d, d)) foundUnreadable =
      (Normal "Invalid Date", foundUnreadable).
Proof.
  assert (Hd : IdDetails.dateOfBirth (idDetails (this foundUnreadable)) =
               Some "soon") by (vm_compute; reflexivity).
  split; [exact Hd|]. split; [vm_compute; reflexivity|].
  destruct (formattedDateOfBirth_unreadable_date (λ d, d) foundUnreadable)
    as (_ & _ & Hcase & _).
  exact (Hcase "soon" Hd eq_refl eq_refl).
Defined.
End MoreExamples.
